(** * Verification of the LinkBot notifier and the unassign bot

    Two GitHub Actions scripts are embedded here:

    - [.github/scripts/bot-pr-missing-linked-issue.js] (the notifier), and
    - the unassign bot (header comment "Unassign Bot").

    JavaScript strings are sequences of UTF-16 code units, regular
    expressions are matched by a continuation-passing backtracking matcher
    in the style of the ECMAScript specification, and the two [async]
    handlers are programs of a small free monad whose events are the REST
    calls and the console output.  *)

From Stdlib Require Import List NArith ZArith Bool Lia String Ascii.
From Stdlib Require DecimalString.
From stdpp Require Import base decidable option list gmap.
Import ListNotations.

Set Default Proof Using "Type".
Local Open Scope N_scope.

(** ** JavaScript strings *)

Module JsString.

(** A string is the list of its UTF-16 code units. *)
Definition jsstring : Type := list N.

(** ASCII literals of the source text. *)
Definition js (s : string) : jsstring :=
  List.map N_of_ascii (list_ascii_of_string s).
Arguments js s%_string : simpl never.

(** [a === b] on strings. *)
Definition str_eqb (a b : jsstring) : bool := bool_decide (a = b).

(** [s.startsWith(p)] *)
Fixpoint startsWith (s p : jsstring) {struct p} : bool :=
  match p, s with
  | [], _ => true
  | _ :: _, [] => false
  | c :: p', d :: s' => (c =? d) && startsWith s' p'
  end.

(** [s.includes(p)]: [p] occurs at some position of [s]. *)
Fixpoint includes (s p : jsstring) : bool :=
  startsWith s p ||
  match s with
  | [] => false
  | _ :: s' => includes s' p
  end.

(** [s.endsWith(p)] *)
Definition endsWith (s p : jsstring) : bool :=
  startsWith (rev s) (rev p).

(** Decimal rendering of an integer, as a template literal prints it. *)
Definition of_Z (z : Z) : jsstring :=
  js (DecimalString.NilZero.string_of_int (Z.to_int z)).

End JsString.
Export JsString.

(** ** Regular expressions *)

Module Regex.

(** The fragment of the pattern syntax the two scripts use.  [Chr] is a
    pattern character, [Class] a character class escape, [WordB] is [\b],
    [Bol] and [Eol] are [^] and [$] (no [m] flag). *)
Inductive RegExp : Type :=
| Eps
| Chr (c : N)
| Class (p : N -> bool)
| Seq (r1 r2 : RegExp)
| Alt (r1 r2 : RegExp)
| Star (r : RegExp)
| WordB
| Bol
| Eol.

(** [r+] and [r?]; for [test] only the existence of a match matters. *)
Definition Plus (r : RegExp) : RegExp := Seq r (Star r).
Definition Opt (r : RegExp) : RegExp := Alt r Eps.

(** A run of pattern characters. *)
Fixpoint lit (s : jsstring) : RegExp :=
  match s with
  | [] => Eps
  | c :: s' => Seq (Chr c) (lit s')
  end.

(** [\d] *)
Definition is_digit (c : N) : bool := (48 <=? c) && (c <=? 57).

(** [\w], the word characters of [\b]: [A-Za-z0-9_]. *)
Definition is_word (c : N) : bool :=
  ((97 <=? c) && (c <=? 122)) || ((65 <=? c) && (c <=? 90)) ||
  is_digit c || (c =? 95).

(** [\s]: WhiteSpace and LineTerminator code points. *)
Definition is_space (c : N) : bool :=
  ((9 <=? c) && (c <=? 13)) || (c =? 32) || (c =? 160) || (c =? 5760) ||
  ((8192 <=? c) && (c <=? 8202)) || (c =? 8232) || (c =? 8233) ||
  (c =? 8239) || (c =? 8287) || (c =? 12288) || (c =? 65279).

(** Canonicalisation under the [i] flag (no [u] flag).  A code unit above
    127 never canonicalises to an ASCII one, so against the ASCII pattern
    characters of the two scripts only the ASCII letters fold. *)
Definition canon (c : N) : N :=
  if (97 <=? c) && (c <=? 122) then c - 32 else c.

(** A position in the input: the code units before it (nearest first) and
    the code units after it. *)
Definition pos : Type := jsstring * jsstring.

Definition before (z : pos) : option N := head (fst z).
Definition after (z : pos) : option N := head (snd z).
Definition remaining (z : pos) : nat := length (snd z).

Definition word_at (o : option N) : bool :=
  match o with Some c => is_word c | None => false end.

(** Matcher of a regular expression with continuation [k], from position [z].
    A starred body that consumes nothing is not iterated (the empty check of
    RepeatMatcher), which bounds the iterations by the remaining input. *)
Fixpoint m (r : RegExp) (k : pos -> bool) (z : pos) : bool :=
  match r with
  | Eps => k z
  | Chr c =>
      match snd z with
      | d :: s => (canon d =? canon c) && k (d :: fst z, s)
      | [] => false
      end
  | Class p =>
      match snd z with
      | d :: s => p d && k (d :: fst z, s)
      | [] => false
      end
  | Seq r1 r2 => m r1 (m r2 k) z
  | Alt r1 r2 => m r1 k z || m r2 k z
  | Star r' =>
      (fix loop (n : nat) (z : pos) {struct n} : bool :=
         match n with
         | O => k z
         | S n' =>
             m r' (fun z' => (remaining z' <? remaining z)%nat && loop n' z') z
             || k z
         end) (remaining z) z
  | WordB => negb (eqb (word_at (before z)) (word_at (after z))) && k z
  | Bol => match fst z with [] => k z | _ :: _ => false end
  | Eol => match snd z with [] => k z | _ :: _ => false end
  end.

(** [regex.test(s)] for a regex without [g] or [y] flag: try every start
    position from the left. *)
Fixpoint search (r : RegExp) (prev s : jsstring) {struct s} : bool :=
  m r (fun _ => true) (prev, s) ||
  match s with
  | [] => false
  | d :: s' => search r (d :: prev) s'
  end.

Definition test (r : RegExp) (s : jsstring) : bool := search r [] s.

(** The matches of [r] as a relation: [matches r z z'] when [r] matches the
    input between the positions [z] and [z']. *)
Inductive matches : RegExp -> pos -> pos -> Prop :=
| M_Eps z : matches Eps z z
| M_Chr c d p s :
    canon d = canon c -> matches (Chr c) (p, d :: s) (d :: p, s)
| M_Class f d p s :
    f d = true -> matches (Class f) (p, d :: s) (d :: p, s)
| M_Seq r1 r2 z1 z2 z3 :
    matches r1 z1 z2 -> matches r2 z2 z3 -> matches (Seq r1 r2) z1 z3
| M_AltL r1 r2 z1 z2 : matches r1 z1 z2 -> matches (Alt r1 r2) z1 z2
| M_AltR r1 r2 z1 z2 : matches r2 z1 z2 -> matches (Alt r1 r2) z1 z2
| M_Star0 r z : matches (Star r) z z
| M_StarS r z1 z2 z3 :
    matches r z1 z2 -> (remaining z2 < remaining z1)%nat ->
    matches (Star r) z2 z3 -> matches (Star r) z1 z3
| M_WordB z :
    word_at (before z) <> word_at (after z) -> matches WordB z z
| M_Bol s : matches Bol ([], s) ([], s)
| M_Eol p : matches Eol (p, []) (p, []).

(** The iteration of a starred body, with [n] bounding the iterations. *)
Definition star_loop (r : RegExp) (k : pos -> bool) :=
  fix loop (n : nat) (z : pos) {struct n} : bool :=
    match n with
    | O => k z
    | S n' =>
        m r (fun z' => (remaining z' <? remaining z)%nat && loop n' z') z
        || k z
    end.

End Regex.
Export Regex.

(** ** Event payloads and the REST vocabulary *)

Module Data.

(** Optional JSON fields are [option]s: [None] stands for a field that is
    missing ([undefined]) or [null]. *)
Record User : Type := mkUser {
  user_login : option jsstring;
  user_type : option jsstring
}.

Record PullRequest : Type := mkPullRequest {
  pr_number : option Z;
  pr_user : option User;
  pr_body : option jsstring
}.

Record Comment : Type := mkComment {
  comment_body : option jsstring;
  comment_user : option User
}.

Record Issue : Type := mkIssue {
  issue_number : option Z;
  issue_pull_request : bool;       (* the [pull_request] member is present *)
  issue_state : option jsstring;
  issue_assignees : option (list User)
}.

Record Payload : Type := mkPayload {
  payload_pull_request : option PullRequest;
  payload_issue : option Issue;
  payload_comment : option Comment
}.

Record Repo : Type := mkRepo {
  repo_owner : jsstring;
  repo_repo : jsstring
}.

Record Context : Type := mkContext {
  context_payload : Payload;
  context_repo : Repo
}.

(** [Number(s)] for the integral values: [NaN] when the variable is unset
    or not numeric. *)
Inductive JsNumber : Type :=
| NaN
| Int (z : Z).

(** [process.env]; [PR_NUMBER] is held as [Number(process.env.PR_NUMBER)]. *)
Record Env : Type := mkEnv {
  env_DRY_RUN : option jsstring;
  env_PR_NUMBER : JsNumber
}.

Record Error : Type := mkError {
  error_message : jsstring;
  error_status : option Z
}.

(** Values handed to [console.log] and [console.error]. *)
#[local] Unset Elimination Schemes.
Inductive jsval : Type :=
| VUndef
| VBool (b : bool)
| VNum (z : Z)
| VStr (s : jsstring)
| VErr (e : Error)
| VArr (l : list jsval)
| VObj (fields : list (jsstring * jsval)).
#[local] Set Elimination Schemes.

Definition v_str (o : option jsstring) : jsval :=
  match o with Some s => VStr s | None => VUndef end.

Definition v_num (o : option Z) : jsval :=
  match o with Some z => VNum z | None => VUndef end.

(** The REST calls of the two scripts, indexed by the type of the awaited
    result ([.data] of the response; all pages for [paginate]). *)
Inductive Call : Type -> Type :=
| pulls_get (owner repo : jsstring) (pull_number : Z) : Call PullRequest
| issues_listComments (owner repo : jsstring) (issue_number : Z) :
    Call (list Comment)
| paginate_issues_listComments (owner repo : jsstring) (issue_number : Z)
    (per_page : Z) : Call (list Comment)
| issues_createComment (owner repo : jsstring) (issue_number : Z)
    (body : jsstring) : Call unit
| issues_removeAssignees (owner repo : jsstring) (issue_number : Z)
    (assignees : list jsstring) : Call unit.

(** The calls that change the repository. *)
Definition mutating {X : Type} (c : Call X) : bool :=
  match c with
  | issues_createComment _ _ _ _ => true
  | issues_removeAssignees _ _ _ _ => true
  | _ => false
  end.

Inductive Level : Type := log | error.

End Data.
Export Data.

(** ** Programs: awaiting calls, console output, exceptions *)

Module Program.

(** An [async] function body.  [Await c k] awaits the promise of call [c];
    [k] receives the rejection or the result. *)
Inductive Prog (A : Type) : Type :=
| Ret (a : A)
| Throw (e : Error)
| Await {X : Type} (c : Call X) (k : Error + X -> Prog A)
| Console (lvl : Level) (args : list jsval) (k : Prog A).
Arguments Ret {A} a.
Arguments Throw {A} e.
Arguments Await {A X} c k.
Arguments Console {A} lvl args k.

Fixpoint bind {A B : Type} (p : Prog A) (f : A -> Prog B) : Prog B :=
  match p with
  | Ret a => f a
  | Throw e => Throw e
  | Await c k => Await c (fun r => bind (k r) f)
  | Console lvl args k => Console lvl args (bind k f)
  end.

(** [await c]: a rejected promise throws at the [await]. *)
Definition await {X : Type} (c : Call X) : Prog X :=
  Await c (fun r => match r with inl e => Throw e | inr x => Ret x end).

Definition console (lvl : Level) (args : list jsval) : Prog unit :=
  Console lvl args (Ret tt).

(** [try { p } catch (error) { h error }] *)
Fixpoint try_catch {A : Type} (p : Prog A) (h : Error -> Prog A) : Prog A :=
  match p with
  | Ret a => Ret a
  | Throw e => h e
  | Await c k => Await c (fun r => try_catch (k r) h)
  | Console lvl args k => Console lvl args (try_catch k h)
  end.

#[global] Instance Prog_ret : MRet Prog := @Ret.
#[global] Instance Prog_bind : MBind Prog := fun A B f p => bind p f.

(** What a run leaves behind, in order: the calls with their results and
    the console lines. *)
Inductive Event : Type :=
| EvCall {X : Type} (c : Call X) (r : Error + X)
| EvConsole (lvl : Level) (args : list jsval).

Inductive Outcome (A : Type) : Type :=
| Returned (a : A)
| Raised (e : Error).
Arguments Returned {A} a.
Arguments Raised {A} e.

(** The REST client: each call yields a rejection or a result and may
    change the state of the service. *)
Definition Api (W : Type) : Type :=
  forall X : Type, Call X -> W -> (Error + X) * W.

Fixpoint exec {W A : Type} (api : Api W) (p : Prog A) (w : W)
  : Outcome A * W * list Event :=
  match p with
  | Ret a => (Returned a, w, [])
  | Throw e => (Raised e, w, [])
  | Await c k =>
      let '(r, w1) := api _ c w in
      let '(o, w2, tr) := exec api (k r) w1 in
      (o, w2, EvCall c r :: tr)
  | Console lvl args k =>
      let '(o, w2, tr) := exec api k w in
      (o, w2, EvConsole lvl args :: tr)
  end.

Definition outcome {W A : Type} (x : Outcome A * W * list Event) : Outcome A :=
  fst (fst x).
Definition final {W A : Type} (x : Outcome A * W * list Event) : W :=
  snd (fst x).
Definition trace {W A : Type} (x : Outcome A * W * list Event) : list Event :=
  snd x.

Definition ev_mutating (ev : Event) : bool :=
  match ev with
  | EvCall c _ => mutating c
  | EvConsole _ _ => false
  end.

Definition ev_call (ev : Event) : bool :=
  match ev with
  | EvCall _ _ => true
  | EvConsole _ _ => false
  end.

Definition ev_failed (ev : Event) : option Error :=
  match ev with
  | EvCall _ (inl e) => Some e
  | _ => None
  end.

(** The calls of a trace, and those among them that change the repository. *)
Definition calls (tr : list Event) : list Event := List.filter ev_call tr.
Definition mutations (tr : list Event) : list Event :=
  List.filter ev_mutating tr.

(** The bodies handed to [createComment], the errors of the rejected calls
    and the console lines of a trace. *)
Definition ev_posted (ev : Event) : option jsstring :=
  match ev with
  | EvCall c _ =>
      match c with
      | issues_createComment _ _ _ b => Some b
      | _ => None
      end
  | EvConsole _ _ => None
  end.

Definition ev_console (ev : Event) : option (Level * list jsval) :=
  match ev with
  | EvCall _ _ => None
  | EvConsole lvl args => Some (lvl, args)
  end.

Definition posted (tr : list Event) : list jsstring := omap ev_posted tr.
Definition failures (tr : list Event) : list Error := omap ev_failed tr.
Definition console_lines (tr : list Event) : list (Level * list jsval) :=
  omap ev_console tr.

(** A run is faithful when it raises exactly the error of its one rejected
    call, and returns when no call was rejected. *)
Definition faithful {W A : Type} (r : Outcome A * W * list Event) : Prop :=
  match outcome r with
  | Returned _ => failures (trace r) = []
  | Raised e => failures (trace r) = [e]
  end.

End Program.
Export Program.

(** ** Truthiness and optional chaining *)

Module Js.

(** [!!x] for a number or a string that may be [undefined]. *)
Definition truthy_num (o : option Z) : bool :=
  match o with Some z => negb (z =? 0)%Z | None => false end.

Definition truthy_str (o : option jsstring) : bool :=
  match o with Some [] => false | Some (_ :: _) => true | None => false end.

(** [x === 'literal'] for a string that may be [undefined]. *)
Definition is_str (o : option jsstring) (s : jsstring) : bool :=
  match o with Some t => str_eqb t s | None => false end.

(** [[l0, l1, ...].join(sep)] *)
Fixpoint join (sep : jsstring) (l : list jsstring) : jsstring :=
  match l with
  | [] => []
  | [x] => x
  | x :: l' => x ++ sep ++ join sep l'
  end.

Definition of_bool (b : bool) : jsstring :=
  if b then js "true" else js "false".

(** A property read of [undefined]. *)
Definition TypeError : Error :=
  mkError (js "Cannot read properties of undefined") None.

End Js.
Export Js.

(** ** The notifier: bot-pr-missing-linked-issue.js *)

Module LinkBot.

Definition LINKBOT_MARKER : jsstring := js "<!-- LinkBot Missing Issue -->".

(** Line 38: [/\b(Fixes|Closes|Resolves)\s*:?\s*(#\d+)(\s*,\s*#\d+)*/i] *)
Definition issue_ref : RegExp := Seq (Chr 35) (Plus (Class is_digit)).

Definition regex : RegExp :=
  Seq WordB
 (Seq (Alt (lit (js "Fixes")) (Alt (lit (js "Closes")) (lit (js "Resolves"))))
 (Seq (Star (Class is_space))
 (Seq (Opt (Chr 58))
 (Seq (Star (Class is_space))
 (Seq issue_ref
      (Star (Seq (Star (Class is_space))
            (Seq (Chr 44)
            (Seq (Star (Class is_space)) issue_ref))))))))).

(** Line 6 *)
Definition isDryRun (env : Env) : bool := is_str (env_DRY_RUN env) (js "true").

(** Line 7: [Number(process.env.PR_NUMBER) || context.payload.pull_request?.number] *)
Definition prNumber (ctx : Context) (env : Env) : option Z :=
  let from_payload :=
    pr ← payload_pull_request (context_payload ctx); pr_number pr in
  match env_PR_NUMBER env with
  | Int z => if (z =? 0)%Z then from_payload else Some z
  | NaN => from_payload
  end.

(** Lines 29-30 *)
Definition authorType (prData : PullRequest) : option jsstring :=
  u ← pr_user prData; user_type u.
Definition authorLogin (prData : PullRequest) : option jsstring :=
  u ← pr_user prData; user_login u.

(** Line 32: [authorType === "Bot" || authorLogin?.endsWith('[bot]')] *)
Definition bot_author (prData : PullRequest) : bool :=
  is_str (authorType prData) (js "Bot") ||
  match authorLogin prData with
  | Some l => endsWith l (js "[bot]")
  | None => false
  end.

(** Line 37: [prData.body || ""] *)
Definition body (prData : PullRequest) : jsstring :=
  match pr_body prData with
  | Some (c :: s) => c :: s
  | _ => []
  end.

(** Lines 46-48 *)
Definition alreadyCommented (comments : list Comment) : bool :=
  existsb (fun comment =>
             match comment_body comment with
             | Some b => includes b LINKBOT_MARKER
             | None => false
             end) comments.

(** Lines 56-74 *)
Definition commentBody (ctx : Context) (prData : PullRequest) : jsstring :=
  let safeAuthor := default (js "there") (authorLogin prData) in
  let owner := repo_owner (context_repo ctx) in
  let repo := repo_repo (context_repo ctx) in
  join [10]
    [ LINKBOT_MARKER ++
      js "Hi @" ++ safeAuthor ++ js ", this is **LinkBot** " ++ [55357; 56395];
      [];
      js "Linking pull requests to issues helps us significantly with reviewing pull requests and keeping the repository healthy.";
      [];
      [55357; 57000] ++ js " **This pull request does not have an issue linked.**";
      [];
      js "Please link an issue using the following format:";
      js "- Fixes #123";
      [];
      [55357; 56534] ++ js " Guide:";
      js "[docs/sdk_developers/how_to_link_issues.md](https://github.com/"
        ++ owner ++ js "/" ++ repo
        ++ js "/blob/main/docs/sdk_developers/how_to_link_issues.md)";
      [];
      js "If no issue exists yet, please create one:";
      js "[docs/sdk_developers/creating_issues.md](https://github.com/"
        ++ owner ++ js "/" ++ repo
        ++ js "/blob/main/docs/sdk_developers/creating_issues.md)";
      [];
      js "Thanks!" ].

Arguments commentBody : simpl never.

(** Lines 29-92, once [prData] is known. *)
Definition check (ctx : Context) (env : Env) (n : Z) (prData : PullRequest)
  : Prog unit :=
  let owner := repo_owner (context_repo ctx) in
  let repo := repo_repo (context_repo ctx) in
  if bot_author prData then
    console log [VStr (js "Skipping comment: PR created by bot ("
                       ++ default (js "undefined") (authorLogin prData)
                       ++ js ")")]
  else
    comments ← await (issues_listComments owner repo n);
    if alreadyCommented comments then
      console log [VStr (js "LinkBot already commented on this PR")]
    else if negb (test regex (body prData)) then
      if isDryRun env then
        console log [VStr (js "DRY RUN: Would post the following comment:")];;
        console log [VStr (js "---")];;
        console log [VStr (commentBody ctx prData)];;
        console log [VStr (js "---")]
      else
        await (issues_createComment owner repo n (commentBody ctx prData));;
        console log [VStr (js "LinkBot comment posted successfully")]
    else
      console log [VStr (js "PR has linked issue - no comment needed")].

(** Lines 16-27: the payload's pull request, or [pulls.get] for a
    [workflow_dispatch] run. *)
Definition fetch (ctx : Context) (n : Z) : Prog PullRequest :=
  match payload_pull_request (context_payload ctx) with
  | Some pr => mret pr
  | None =>
      await (pulls_get (repo_owner (context_repo ctx))
                       (repo_repo (context_repo ctx)) n)
  end.

(** Lines 6-92: the [try] block. *)
Definition attempt (ctx : Context) (env : Env) : Prog unit :=
  match prNumber ctx env with
  | Some n =>
      if (n =? 0)%Z then
        Throw (mkError (js "PR number could not be determined") None)
      else
        console log [VStr (js "Processing PR #" ++ of_Z n ++ js " (Dry run: "
                           ++ of_bool (isDryRun env) ++ js ")")];;
        prData ← fetch ctx n;
        check ctx env n prData
  | None => Throw (mkError (js "PR number could not be determined") None)
  end.

(** Lines 93-98: the [catch] block. *)
Definition report (ctx : Context) (env : Env) (err : Error) : Prog unit :=
  console error [VStr (js "Error processing PR:"); VErr err];;
  console error [VStr (js "PR number:"); v_num (prNumber ctx env)];;
  console error [VStr (js "Repository:");
                 VStr (repo_owner (context_repo ctx) ++ js "/"
                       ++ repo_repo (context_repo ctx))];;
  Throw err.

(** [module.exports = async ({ github, context }) => ...] *)
Definition handler (ctx : Context) (env : Env) : Prog unit :=
  try_catch (attempt ctx env) (report ctx env).

End LinkBot.

(** ** The unassign bot *)

Module Unassign.

(** Lines 20-26 *)
Definition isValidUnassignContext (issue : option Issue)
    (comment : option Comment) : bool :=
  if negb (truthy_num (i ← issue; issue_number i))
     || from_option issue_pull_request false issue then false
  else if negb (truthy_str (c ← comment; comment_body c))
     || negb (truthy_str (c ← comment; u ← comment_user c; user_login u))
  then false
  else if is_str (c ← comment; u ← comment_user c; user_type u) (js "Bot")
  then false
  else if negb (is_str (i ← issue; issue_state i) (js "open")) then false
  else true.

(** Line 31: [/(^|\s)\/unassign(\s|$)/i] *)
Definition unassign_regex : RegExp :=
  Seq (Alt Bol (Class is_space))
 (Seq (lit (js "/unassign"))
      (Alt (Class is_space) Eol)).

(** Lines 28-33; a body that is not a string is [None]. *)
Definition commentRequestsUnassign (body : option jsstring) : bool :=
  match body with
  | Some s => test unassign_regex s
  | None => false
  end.

(** Lines 35-37 *)
Definition buildUnassignMarker (username : jsstring) : jsstring :=
  js "<!-- unassign-requested:" ++ username ++ js " -->".

(** Lines 39-41; [None] is the [undefined] of [issue.assignees?.some]. *)
Definition isCurrentAssignee (issue : Issue) (username : jsstring)
  : option bool :=
  l ← issue_assignees issue;
  Some (existsb (fun a => is_str (user_login a) username) l).

(** Lines 97-99 *)
Definition alreadyUnassigned (comments : list Comment) (marker : jsstring)
  : bool :=
  existsb (fun c =>
             match comment_body c with
             | Some b => includes b marker
             | None => false
             end) comments.

(** Lines 121-124 *)
Definition confirmationMessage (username : jsstring) : jsstring :=
  [9989] ++ js " **@" ++ username ++ js ", you" ++ [8217]
    ++ js "ve been unassigned from this issue.**" ++ [10; 10]
    ++ js "Thanks for letting us know! If you" ++ [8217]
    ++ js "d like to work on something else, "
    ++ js "feel free to browse our open issues.".

Definition commenter (comment : option Comment) : option jsstring :=
  c ← comment; u ← comment_user c; user_login u.

(** Lines 71-136, for a valid context that requests the unassignment. *)
Definition proceed (ctx : Context) (issue : Issue) (username : jsstring)
    (issueNumber : Z) : Prog unit :=
  let owner := repo_owner (context_repo ctx) in
  let repo := repo_repo (context_repo ctx) in
  console log [VStr (js "[unassign] Unassign command detected by");
               VStr username];;
  if negb (default false (isCurrentAssignee issue username)) then
    console log
      [VStr (js "[unassign] Exit: commenter is not an assignee");
       VObj [(js "requester", VStr username);
             (js "currentAssignees",
              match issue_assignees issue with
              | Some l => VArr (List.map (fun a => v_str (user_login a)) l)
              | None => VUndef
              end)]]
  else
    comments ← await (paginate_issues_listComments owner repo issueNumber 100);
    let marker := buildUnassignMarker username in
    if alreadyUnassigned comments marker then
      console log
        [VStr (js "[unassign] Exit: unassign already requested previously");
         VObj [(js "requester", VStr username);
               (js "issueNumber", VNum issueNumber)]]
    else
      console log
        [VStr (js "[unassign] Proceeding to unassign user");
         VObj [(js "requester", VStr username);
               (js "issueNumber", VNum issueNumber)]];;
      await (issues_removeAssignees owner repo issueNumber [username]);;
      await (issues_createComment owner repo issueNumber
               (marker ++ [10; 10] ++ confirmationMessage username));;
      console log
        [VStr (js "[unassign] Unassign completed successfully");
         VObj [(js "requester", VStr username);
               (js "issueNumber", VNum issueNumber)]].

(** Lines 45-136: the [try] block. *)
Definition attempt (ctx : Context) : Prog unit :=
  let issue := payload_issue (context_payload ctx) in
  let comment := payload_comment (context_payload ctx) in
  console log
    [VStr (js "[unassign] Payload snapshot:");
     VObj [(js "issueNumber", v_num (i ← issue; issue_number i));
           (js "commenter", v_str (commenter comment));
           (js "commenterType",
            v_str (c ← comment; u ← comment_user c; user_type u));
           (js "commentBody", v_str (c ← comment; comment_body c))]];;
  if negb (isValidUnassignContext issue comment) then
    console log
      [VStr (js "[unassign] Exit: invalid unassign context");
       VObj [(js "issueNumber", v_num (i ← issue; issue_number i));
             (js "commenter", v_str (commenter comment));
             (js "issueState", v_str (i ← issue; issue_state i));
             (js "isBot",
              VBool (is_str (c ← comment; u ← comment_user c; user_type u)
                            (js "Bot")))]]
  else if negb (commentRequestsUnassign (c ← comment; comment_body c)) then
    console log [VStr (js "[unassign] Exit: comment does not request unassign")]
  else
    match issue, commenter comment, i ← issue; issue_number i with
    | Some i, Some username, Some issueNumber =>
        proceed ctx i username issueNumber
    | _, _, _ => Throw TypeError    (* not reached: the context is valid *)
    end.

(** Lines 138-146: the [catch] block. *)
Definition report (ctx : Context) (err : Error) : Prog unit :=
  console error
    [VStr (js "[unassign] Error:");
     VObj [(js "message", VStr (error_message err));
           (js "status", v_num (error_status err));
           (js "issueNumber",
            v_num (i ← payload_issue (context_payload ctx); issue_number i));
           (js "commenter",
            v_str (commenter (payload_comment (context_payload ctx))))]];;
  Throw err.

(** [module.exports = async ({ github, context }) => ...] *)
Definition handler (ctx : Context) : Prog unit :=
  try_catch (attempt ctx) (report ctx).

End Unassign.

(** ** A model of the REST service *)

Module GitHub.

(** The REST service is an external collaborator of the two scripts
    ([pulls.get], [issues.listComments], [issues.createComment],
    [issues.removeAssignees]).  Its state, for one repository, as the calls
    of the scripts see it: the pull requests, the comment thread of every
    issue and pull request in creation order, the assignees, the account of
    the token, and the page size of a list call that sets no [per_page]. *)
Record State : Type := mkState {
  owner : jsstring;
  repo : jsstring;
  pulls : gmap Z PullRequest;
  threads : gmap Z (list Comment);
  assignees : gmap Z (list jsstring);
  actor : User;
  per_page : nat
}.

Definition not_found : Error := mkError (js "Not Found") (Some 404%Z).

Definition here (w : State) (o r : jsstring) : bool :=
  str_eqb o (owner w) && str_eqb r (repo w).

Definition set_thread (w : State) (n : Z) (l : list Comment) : State :=
  mkState (owner w) (repo w) (pulls w) (<[n := l]> (threads w))
          (assignees w) (actor w) (per_page w).

Definition set_assignees (w : State) (n : Z) (l : list jsstring) : State :=
  mkState (owner w) (repo w) (pulls w) (threads w)
          (<[n := l]> (assignees w)) (actor w) (per_page w).

(** A list call without [paginate] returns the first page only; [paginate]
    returns the concatenation of all pages; [createComment] appends a
    comment of the token's account; [removeAssignees] drops the logins. *)
Definition api : Api State :=
  fun X c =>
    match c in Call X return State -> (Error + X) * State with
    | pulls_get o r n => fun w =>
        match (if here w o r then pulls w !! n else None) with
        | Some pr => (inr pr, w)
        | None => (inl not_found, w)
        end
    | issues_listComments o r n => fun w =>
        match (if here w o r then threads w !! n else None) with
        | Some l => (inr (take (per_page w) l), w)
        | None => (inl not_found, w)
        end
    | paginate_issues_listComments o r n _ => fun w =>
        match (if here w o r then threads w !! n else None) with
        | Some l => (inr l, w)
        | None => (inl not_found, w)
        end
    | issues_createComment o r n b => fun w =>
        match (if here w o r then threads w !! n else None) with
        | Some l =>
            (inr tt, set_thread w n (l ++ [mkComment (Some b) (Some (actor w))]))
        | None => (inl not_found, w)
        end
    | issues_removeAssignees o r n us => fun w =>
        match (if here w o r then threads w !! n else None) with
        | Some _ =>
            (inr tt,
             set_assignees w n
               (List.filter (fun a => negb (existsb (str_eqb a) us))
                            (default [] (assignees w !! n))))
        | None => (inl not_found, w)
        end
    end.

(** The thread of issue or pull request [n]. *)
Definition thread (w : State) (n : Z) : list Comment :=
  default [] (threads w !! n).

End GitHub.

(** ** Vocabulary of the statements *)

Module Statements.

(** The first console line of the notifier. *)
Definition processing_line (env : Env) (n : Z) : Event :=
  EvConsole log [VStr (js "Processing PR #" ++ of_Z n ++ js " (Dry run: "
                       ++ of_bool (LinkBot.isDryRun env) ++ js ")")].

(** The console lines of the two [catch] blocks. *)
Definition linkbot_report_lines (ctx : Context) (env : Env) (err : Error)
  : list Event :=
  [ EvConsole error [VStr (js "Error processing PR:"); VErr err];
    EvConsole error [VStr (js "PR number:"); v_num (LinkBot.prNumber ctx env)];
    EvConsole error [VStr (js "Repository:");
                     VStr (repo_owner (context_repo ctx) ++ js "/"
                           ++ repo_repo (context_repo ctx))] ].

Definition unassign_report_lines (ctx : Context) (err : Error) : list Event :=
  [ EvConsole error
      [VStr (js "[unassign] Error:");
       VObj [(js "message", VStr (error_message err));
             (js "status", v_num (error_status err));
             (js "issueNumber",
              v_num (i ← payload_issue (context_payload ctx); issue_number i));
             (js "commenter",
              v_str (Unassign.commenter
                       (payload_comment (context_payload ctx))))]] ].

(** A precondition of section 4.2 fails: the issue is missing or is a pull
    request, the comment has no body or no non-bot author, or the issue is
    not open. *)
Definition precondition_fails (issue : option Issue) (comment : option Comment)
  : Prop :=
  truthy_num (i ← issue; issue_number i) = false
  \/ (exists i, issue = Some i /\ issue_pull_request i = true)
  \/ truthy_str (c ← comment; comment_body c) = false
  \/ truthy_str (Unassign.commenter comment) = false
  \/ (c ← comment; u ← comment_user c; user_type u) = Some (js "Bot")
  \/ (i ← issue; issue_state i) <> Some (js "open").

(** The commenter is not among the assignees the issue lists. *)
Definition not_assignee (issue : Issue) (username : jsstring) : Prop :=
  forall l a, issue_assignees issue = Some l -> In a l ->
              user_login a <> Some username.

(** The calls of the notifier and of the unassign bot for a context. *)
Definition list_call (ctx : Context) (n : Z) : Call (list Comment) :=
  issues_listComments (repo_owner (context_repo ctx))
                      (repo_repo (context_repo ctx)) n.

Definition create_call (ctx : Context) (n : Z) (pr : PullRequest) : Call unit :=
  issues_createComment (repo_owner (context_repo ctx))
    (repo_repo (context_repo ctx)) n (LinkBot.commentBody ctx pr).

Definition paginate_call (ctx : Context) (n : Z) : Call (list Comment) :=
  paginate_issues_listComments (repo_owner (context_repo ctx))
    (repo_repo (context_repo ctx)) n 100.

Definition remove_call (ctx : Context) (n : Z) (u : jsstring) : Call unit :=
  issues_removeAssignees (repo_owner (context_repo ctx))
    (repo_repo (context_repo ctx)) n [u].

Definition confirmation (u : jsstring) : jsstring :=
  Unassign.buildUnassignMarker u ++ [10; 10] ++ Unassign.confirmationMessage u.

Definition confirm_call (ctx : Context) (n : Z) (u : jsstring) : Call unit :=
  issues_createComment (repo_owner (context_repo ctx))
    (repo_repo (context_repo ctx)) n (confirmation u).

(** No word character stands right before the end of [pre]. *)
Definition no_word_before (pre : jsstring) : Prop :=
  forall pre' c, pre = pre' ++ [c] -> is_word c = false.

(** ASCII lower case, to compare keywords as the [i] flag does. *)
Definition to_lower (c : N) : N :=
  if (65 <=? c) && (c <=? 90) then c + 32 else c.

Definition lower (s : jsstring) : jsstring := List.map to_lower s.

(** The body lacks a closing keyword: none of Fixes, Closes, Resolves occurs
    in it, in any letter case. *)
Definition lacks_closing_keyword (body : jsstring) : bool :=
  negb (includes (lower body) (js "fixes"))
  && negb (includes (lower body) (js "closes"))
  && negb (includes (lower body) (js "resolves")).

(** The body holds a standalone /unassign token: in any letter case,
    delimited on each side by white space or an end of the body. *)
Definition standalone_unassign (body : jsstring) : Prop :=
  exists pre tok post,
    body = pre ++ tok ++ post /\ lower tok = js "/unassign" /\
    (pre = [] \/ exists pre' c, pre = pre' ++ [c] /\ is_space c = true) /\
    (post = [] \/ exists c post', post = c :: post' /\ is_space c = true).

(** The service is the repository of the context. *)
Definition here_ctx (w : GitHub.State) (ctx : Context) : Prop :=
  GitHub.here w (repo_owner (context_repo ctx))
                (repo_repo (context_repo ctx)) = true.

(** The pull request the notifier works on: the one of the payload, or the
    one the service holds under the number. *)
Definition serves (w : GitHub.State) (ctx : Context) (n : Z)
    (pr : PullRequest) : Prop :=
  payload_pull_request (context_payload ctx) = Some pr \/
  (payload_pull_request (context_payload ctx) = None /\
   GitHub.pulls w !! n = Some pr).

(** A comment that carries the LinkBot marker, the comment the notifier
    posts, and the number of marked comments of a thread. *)
Definition marked (c : Comment) : bool :=
  match comment_body c with
  | Some b => includes b LinkBot.LINKBOT_MARKER
  | None => false
  end.

Definition reminder (ctx : Context) (pr : PullRequest) (w : GitHub.State)
  : Comment :=
  mkComment (Some (LinkBot.commentBody ctx pr)) (Some (GitHub.actor w)).

Definition reminders (w : GitHub.State) (n : Z) : nat :=
  length (List.filter marked (GitHub.thread w n)).

(** [k] runs of the notifier in a row on the same event: the final state
    of the service and the events of all runs. *)
Fixpoint linkbot_runs (ctx : Context) (env : Env) (k : nat) (w : GitHub.State)
  : GitHub.State * list Event :=
  match k with
  | O => (w, [])
  | S k' =>
      let r := exec GitHub.api (LinkBot.handler ctx env) w in
      let '(w', t) := linkbot_runs ctx env k' (final r) in
      (w', trace r ++ t)
  end.

(** The confirmation the unassign bot posts. *)
Definition confirmation_comment (w : GitHub.State) (u : jsstring) : Comment :=
  mkComment (Some (confirmation u)) (Some (GitHub.actor w)).

End Statements.
Export Statements.

(** ** Sample inputs *)

Module Samples.

Definition hiero : Repo := mkRepo (js "hiero-ledger") (js "hiero-sdk-python").

Definition alice : User := mkUser (Some (js "alice")) (Some (js "User")).
Definition bob : User := mkUser (Some (js "bob")) (Some (js "User")).
Definition dependabot : User :=
  mkUser (Some (js "dependabot[bot]")) (Some (js "Bot")).
Definition helper_bot : User := mkUser (Some (js "helper")) (Some (js "Bot")).
Definition actions_bot : User :=
  mkUser (Some (js "github-actions[bot]")) (Some (js "Bot")).

(** A repository with pull request 5, whose thread is [thread5], and
    issue 7 without comments; list calls return pages of 30. *)
Definition service (pr : PullRequest) (thread5 : list Comment)
    (assigned : list jsstring) : GitHub.State :=
  GitHub.mkState (js "hiero-ledger") (js "hiero-sdk-python")
    {[ 5%Z := pr ]}
    {[ 5%Z := thread5; 7%Z := [] ]}
    {[ 7%Z := assigned ]}
    actions_bot 30.

Definition ping : Comment := mkComment (Some (js "ping")) (Some bob).

Definition pr_event (pr : PullRequest) : Context :=
  mkContext (mkPayload (Some pr) None None) hiero.

Definition comment_event (state : jsstring) (assigned : list User)
    (author : User) (text : jsstring) : Context :=
  mkContext
    (mkPayload None
       (Some (mkIssue (Some 7%Z) false (Some state) (Some assigned)))
       (Some (mkComment (Some text) (Some author))))
    hiero.

(** Pull requests 5 and the open issue 7 of the sample events. *)
Definition plain_pr : PullRequest := mkPullRequest (Some 5%Z) (Some alice) None.
Definition bot_pr : PullRequest :=
  mkPullRequest (Some 5%Z) (Some dependabot) None.
Definition linked_pr : PullRequest :=
  mkPullRequest (Some 5%Z) (Some alice) (Some (js "This Fixes #12.")).
Definition hotfix_pr : PullRequest :=
  mkPullRequest (Some 5%Z) (Some alice) (Some (js "HotFixes #12")).

Definition open_issue (assigned : list User) : Issue :=
  mkIssue (Some 7%Z) false (Some (js "open")) (Some assigned).

Definition no_env : Env := mkEnv None NaN.
Definition dry_env : Env := mkEnv (Some (js "true")) NaN.

End Samples.

(** ** Further vocabulary: closing references, logins, call sequences *)

Module Coverage.

(** The two parts of the notifier's pattern after [\b]. *)
Definition keywords : RegExp :=
  Alt (lit (js "Fixes")) (Alt (lit (js "Closes")) (lit (js "Resolves"))).

Definition reference_tail : RegExp :=
  Seq (Star (Class is_space))
 (Seq (Opt (Chr 58))
 (Seq (Star (Class is_space))
 (Seq LinkBot.issue_ref
      (Star (Seq (Star (Class is_space))
            (Seq (Chr 44)
            (Seq (Star (Class is_space)) LinkBot.issue_ref))))))).

(** The body holds a closing reference: at a place that no word character
    precedes, a keyword in any letter case, white space, at most one colon,
    white space, "#" and a digit. *)
Definition closing_reference (body : jsstring) : Prop :=
  exists pre kw ws1 colon ws2 d rest,
    body = pre ++ kw ++ ws1 ++ colon ++ ws2 ++ [35; d] ++ rest /\
    no_word_before pre /\
    (lower kw = js "fixes" \/ lower kw = js "closes" \/
     lower kw = js "resolves") /\
    forallb is_space ws1 = true /\
    (colon = [] \/ colon = [58]) /\
    forallb is_space ws2 = true /\
    is_digit d = true.

(** A login without "<" and without a space, and a string free of a code
    unit. *)
Definition plain_login (u : jsstring) : bool :=
  forallb (fun c => negb (c =? 60) && negb (c =? 32)) u.

Definition free_of (x : N) (s : jsstring) : bool :=
  forallb (fun c => negb (c =? x)) s.

(** A call reduced to its kind, its target and whether it succeeded; the
    steps of a trace are its calls in order. *)
Inductive CallKind : Type :=
| KPullsGet | KListComments | KPaginate | KCreateComment | KRemoveAssignees.

Record Step : Type := mkStep {
  step_kind : CallKind;
  step_owner : jsstring;
  step_repo : jsstring;
  step_number : Z;
  step_ok : bool
}.

Definition call_step {X : Type} (c : Call X) (ok : bool) : Step :=
  match c with
  | pulls_get o r n => mkStep KPullsGet o r n ok
  | issues_listComments o r n => mkStep KListComments o r n ok
  | paginate_issues_listComments o r n _ => mkStep KPaginate o r n ok
  | issues_createComment o r n _ => mkStep KCreateComment o r n ok
  | issues_removeAssignees o r n _ => mkStep KRemoveAssignees o r n ok
  end.

Definition ev_step (ev : Event) : option Step :=
  match ev with
  | EvCall c (inl _) => Some (call_step c false)
  | EvCall c (inr _) => Some (call_step c true)
  | EvConsole _ _ => None
  end.

Definition steps (tr : list Event) : list Step := omap ev_step tr.

(** The call sequences of the notifier: [pulls.get] only when the payload
    holds no pull request, then [listComments], then [createComment]; each
    on the repository of the context and the determined number. *)
Definition linkbot_step (ctx : Context) (n : Z) (k : CallKind) (ok : bool)
  : Step :=
  mkStep k (repo_owner (context_repo ctx)) (repo_repo (context_repo ctx)) n ok.

Definition linkbot_tails (ctx : Context) (n : Z) : list (list Step) :=
  let S := linkbot_step ctx n in
  [ [];
    [S KListComments false];
    [S KListComments true];
    [S KListComments true; S KCreateComment false];
    [S KListComments true; S KCreateComment true] ].

Definition linkbot_protocol (ctx : Context) (env : Env) : list (list Step) :=
  let n := default 0%Z (LinkBot.prNumber ctx env) in
  match payload_pull_request (context_payload ctx) with
  | Some _ => linkbot_tails ctx n
  | None =>
      [] :: [linkbot_step ctx n KPullsGet false]
      :: List.map (cons (linkbot_step ctx n KPullsGet true))
                  (linkbot_tails ctx n)
  end.

(** The call sequences of the unassign bot. *)
Definition unassign_protocol (ctx : Context) : list (list Step) :=
  let S k ok :=
    mkStep k (repo_owner (context_repo ctx)) (repo_repo (context_repo ctx))
           (default 0%Z (i ← payload_issue (context_payload ctx);
                         issue_number i)) ok in
  [ [];
    [S KPaginate false];
    [S KPaginate true];
    [S KPaginate true; S KRemoveAssignees false];
    [S KPaginate true; S KRemoveAssignees true; S KCreateComment false];
    [S KPaginate true; S KRemoveAssignees true; S KCreateComment true] ].

(** The same event without the pull request in its payload, as a
    [workflow_dispatch] run with PR_NUMBER set to [n] sees it. *)
Definition dispatch_ctx (ctx : Context) : Context :=
  mkContext (mkPayload None (payload_issue (context_payload ctx))
                       (payload_comment (context_payload ctx)))
            (context_repo ctx).

Definition dispatch_env (env : Env) (n : Z) : Env :=
  mkEnv (env_DRY_RUN env) (Int n).

End Coverage.
Export Coverage.

(** * Properties *)

(** ** Running programs *)

Section Exec.
Context {W : Type} (api : Api W).

Lemma exec_bind {A B : Type} (p : Prog A) (f : A -> Prog B) (w : W) :
  exec api (p ≫= f) w =
  match exec api p w with
  | (Returned a, w1, t1) =>
      let '(o, w2, t2) := exec api (f a) w1 in (o, w2, t1 ++ t2)
  | (Raised e, w1, t1) => (Raised e, w1, t1)
  end.
Proof.
  unfold mbind, Prog_bind. revert w.
  induction p as [a|e|X c k IH|lvl args k IH]; intros w; simpl.
  - destruct (exec api (f a) w) as [[o w2] t2]. reflexivity.
  - reflexivity.
  - destruct (api X c w) as [r w1]. rewrite IH.
    destruct (exec api (k r) w1) as [[[a|e] w2] t1]; simpl; [|reflexivity].
    destruct (exec api (f a) w2) as [[o w3] t2]. reflexivity.
  - rewrite IH.
    destruct (exec api k w) as [[[a|e] w2] t1]; simpl; [|reflexivity].
    destruct (exec api (f a) w2) as [[o w3] t2]. reflexivity.
Qed.

Lemma exec_try_catch {A : Type} (p : Prog A) (h : Error -> Prog A) (w : W) :
  exec api (try_catch p h) w =
  match exec api p w with
  | (Returned a, w1, t1) => (Returned a, w1, t1)
  | (Raised e, w1, t1) =>
      let '(o, w2, t2) := exec api (h e) w1 in (o, w2, t1 ++ t2)
  end.
Proof.
  revert w.
  induction p as [a|e|X c k IH|lvl args k IH]; intros w; simpl.
  - reflexivity.
  - destruct (exec api (h e) w) as [[o w2] t2]. reflexivity.
  - destruct (api X c w) as [r w1]. rewrite IH.
    destruct (exec api (k r) w1) as [[[a|e] w2] t1]; simpl; [reflexivity|].
    destruct (exec api (h e) w2) as [[o w3] t2]. reflexivity.
  - rewrite IH.
    destruct (exec api k w) as [[[a|e] w2] t1]; simpl; [reflexivity|].
    destruct (exec api (h e) w2) as [[o w3] t2]. reflexivity.
Qed.

End Exec.

(** ** Traces *)

Lemma calls_app t1 t2 : calls (t1 ++ t2) = calls t1 ++ calls t2.
Proof. apply List.filter_app. Qed.

Lemma failures_calls tr : failures (calls tr) = failures tr.
Proof.
  unfold failures, calls. induction tr as [|ev tr IH]; [reflexivity|].
  destruct ev as [X c [e|x]|lvl args]; simpl; first [exact IH | f_equal; exact IH].
Qed.

Lemma mutations_calls tr : mutations (calls tr) = mutations tr.
Proof.
  unfold mutations, calls. induction tr as [|ev tr IH]; [reflexivity|].
  destruct ev as [X c r|lvl args]; simpl; [|exact IH].
  destruct (mutating c); first [exact IH | f_equal; exact IH].
Qed.

Lemma posted_calls tr : posted (calls tr) = posted tr.
Proof.
  unfold posted, calls. induction tr as [|ev tr IH]; [reflexivity|].
  destruct ev as [X c r|lvl args]; simpl; [|exact IH].
  destruct c; simpl; first [exact IH | f_equal; exact IH].
Qed.

Lemma posted_app t1 t2 : posted (t1 ++ t2) = posted t1 ++ posted t2.
Proof. apply omap_app. Qed.

Lemma mutations_app t1 t2 : mutations (t1 ++ t2) = mutations t1 ++ mutations t2.
Proof. apply List.filter_app. Qed.

Lemma failures_app t1 t2 : failures (t1 ++ t2) = failures t1 ++ failures t2.
Proof. apply omap_app. Qed.

Lemma console_lines_app t1 t2 :
  console_lines (t1 ++ t2) = console_lines t1 ++ console_lines t2.
Proof. apply omap_app. Qed.

Lemma calls_mutations (tr : list Event) : calls tr = [] -> mutations tr = [].
Proof.
  unfold calls, mutations. induction tr as [|ev tr IH]; [reflexivity|].
  simpl. destruct ev as [X c r|lvl args]; simpl.
  - discriminate.
  - exact IH.
Qed.

Lemma calls_posted tr : calls tr = [] -> posted tr = [].
Proof.
  unfold calls, posted. induction tr as [|ev tr IH]; [reflexivity|].
  simpl. destruct ev as [X c r|lvl args]; simpl; [discriminate|exact IH].
Qed.

Ltac traces :=
  unfold trace, outcome, final; cbn [fst snd];
  repeat (rewrite ?posted_app, ?mutations_app, ?failures_app,
            ?console_lines_app; cbn);
  change (omap ev_posted) with posted;
  change (omap ev_failed) with failures;
  change (omap ev_console) with console_lines;
  change (List.filter ev_mutating) with mutations;
  change (List.filter ev_call) with calls;
  rewrite ?app_nil_r.

(** ** Strings *)

Lemma is_str_true o s : is_str o s = true <-> o = Some s.
Proof.
  unfold is_str, str_eqb. destruct o as [t|]; [|split; discriminate].
  rewrite bool_decide_eq_true. split; congruence.
Qed.

Lemma is_str_false o s : is_str o s = false <-> o <> Some s.
Proof.
  rewrite <- is_str_true. destruct (is_str o s); split; congruence.
Qed.

Lemma startsWith_app p : forall t, startsWith (p ++ t) p = true.
Proof.
  induction p as [|c p IH]; intros t; simpl; [reflexivity|].
  rewrite N.eqb_refl. apply IH.
Qed.

Lemma includes_app a b c : includes (a ++ b ++ c) b = true.
Proof.
  induction a as [|x a IH]; simpl.
  - destruct b as [|y b]; simpl.
    + destruct c; reflexivity.
    + rewrite N.eqb_refl, startsWith_app. reflexivity.
  - rewrite IH. apply orb_true_r.
Qed.

(** ** Regular expressions: the matcher and the match relation *)

Lemma matches_remaining r z z' :
  matches r z z' -> (remaining z' <= remaining z)%nat.
Proof.
  induction 1; unfold remaining in *; simpl in *; lia.
Qed.

Lemma m_star r k z : m (Star r) k z = star_loop r k (remaining z) z.
Proof. reflexivity. Qed.

Lemma star_loop_spec r k
  (IH : forall k z, m r k z = true <-> exists z', matches r z z' /\ k z' = true) :
  forall n z, (remaining z <= n)%nat ->
    star_loop r k n z = true <->
    exists z', matches (Star r) z z' /\ k z' = true.
Proof.
  induction n as [|n IHn]; intros z Hz; simpl.
  - split.
    + intros H. exists z. split; [constructor|exact H].
    + intros (z' & Hm & Hk). inversion Hm; subst; [exact Hk|lia].
  - rewrite orb_true_iff, IH. split.
    + intros [(z1 & H1 & H2)|H].
      * apply andb_true_iff in H2 as [Hlt H2]. apply Nat.ltb_lt in Hlt.
        apply IHn in H2 as (z' & Hs & Hk); [|lia].
        exists z'. split; [|exact Hk]. econstructor; eauto.
      * exists z. split; [constructor|exact H].
    + intros (z' & Hm & Hk). inversion Hm; subst.
      * right. exact Hk.
      * left. exists z2. split; [assumption|].
        apply andb_true_iff. split; [apply Nat.ltb_lt; assumption|].
        apply IHn; [lia|]. eauto.
Qed.

Theorem m_spec r : forall k z,
  m r k z = true <-> exists z', matches r z z' /\ k z' = true.
Proof.
  induction r as [|c|f|r1 IH1 r2 IH2|r1 IH1 r2 IH2|r IH| | |]; intros k [p s].
  - simpl. split.
    + intros H. eexists. split; [constructor|exact H].
    + intros (z' & Hm & Hk). inversion Hm; subst. exact Hk.
  - simpl. destruct s as [|d s].
    + split; [discriminate|]. intros (z' & Hm & _). inversion Hm.
    + rewrite andb_true_iff, N.eqb_eq. split.
      * intros [Hc Hk]. eexists. split; [constructor; exact Hc|exact Hk].
      * intros (z' & Hm & Hk). inversion Hm; subst. auto.
  - simpl. destruct s as [|d s].
    + split; [discriminate|]. intros (z' & Hm & _). inversion Hm.
    + rewrite andb_true_iff. split.
      * intros [Hc Hk]. eexists. split; [constructor; exact Hc|exact Hk].
      * intros (z' & Hm & Hk). inversion Hm; subst. auto.
  - simpl. rewrite IH1. split.
    + intros (z1 & H1 & H2). apply IH2 in H2 as (z2 & H2 & Hk).
      exists z2. split; [econstructor; eauto|exact Hk].
    + intros (z' & Hm & Hk). inversion Hm; subst.
      eexists. split; [eassumption|]. apply IH2. eauto.
  - simpl. rewrite orb_true_iff, IH1, IH2. split.
    + intros [(z' & H & Hk)|(z' & H & Hk)]; exists z'; split; auto;
        [apply M_AltL|apply M_AltR]; assumption.
    + intros (z' & Hm & Hk). inversion Hm; subst; [left|right]; eauto.
  - rewrite m_star. apply star_loop_spec; [exact IH|lia].
  - simpl. rewrite andb_true_iff, negb_true_iff, eqb_false_iff. split.
    + intros [Hb Hk]. eexists. split; [constructor; exact Hb|exact Hk].
    + intros (z' & Hm & Hk). inversion Hm; subst. auto.
  - simpl. destruct p as [|c p].
    + split.
      * intros Hk. eexists. split; [constructor|exact Hk].
      * intros (z' & Hm & Hk). inversion Hm; subst. exact Hk.
    + split; [discriminate|]. intros (z' & Hm & _). inversion Hm.
  - simpl. destruct s as [|c s].
    + split.
      * intros Hk. eexists. split; [constructor|exact Hk].
      * intros (z' & Hm & Hk). inversion Hm; subst. exact Hk.
    + split; [discriminate|]. intros (z' & Hm & _). inversion Hm.
Qed.

Lemma search_spec r : forall s prev,
  search r prev s = true <->
  exists pre post z', s = pre ++ post /\ matches r (rev pre ++ prev, post) z'.
Proof.
  induction s as [|d s IH]; intros prev; simpl.
  - rewrite orb_false_r, m_spec. split.
    + intros (z' & Hm & _). exists [], [], z'. auto.
    + intros (pre & post & z' & E & Hm).
      symmetry in E. apply app_eq_nil in E as [-> ->]. eauto.
  - rewrite orb_true_iff, m_spec, IH. split.
    + intros [(z' & Hm & _)|(pre & post & z' & E & Hm)].
      * exists [], (d :: s), z'. auto.
      * exists (d :: pre), post, z'. subst s. split; [reflexivity|].
        simpl. rewrite <- app_assoc. exact Hm.
    + intros (pre & post & z' & E & Hm). destruct pre as [|c pre].
      * left. simpl in *. subst post. eauto.
      * right. simpl in E. injection E as <- ->. exists pre, post, z'.
        split; [reflexivity|]. simpl in Hm. rewrite <- app_assoc in Hm.
        exact Hm.
Qed.

Theorem test_spec r s :
  test r s = true <->
  exists pre post z', s = pre ++ post /\ matches r (rev pre, post) z'.
Proof.
  unfold test. rewrite search_spec. 
  split; intros (pre & post & z' & E & Hm); exists pre, post, z';
    (split; [exact E|]); [rewrite app_nil_r in Hm|rewrite app_nil_r]; exact Hm.
Qed.

Lemma lit_matches_intro s : forall s' p t,
  List.map canon s' = List.map canon s ->
  matches (lit s) (p, s' ++ t) (rev s' ++ p, t).
Proof.
  induction s as [|c s IH]; intros [|d s'] p t E; try discriminate; simpl.
  - constructor.
  - simpl in E. injection E as Ec Es.
    econstructor; [constructor; exact Ec|].
    rewrite <- app_assoc. simpl. apply IH. exact Es.
Qed.

Lemma lit_matches_inv s : forall p t z',
  matches (lit s) (p, t) z' ->
  exists s' t', t = s' ++ t' /\ List.map canon s' = List.map canon s /\
                z' = (rev s' ++ p, t').
Proof.
  induction s as [|c s IH]; intros p t z' H; simpl in H.
  - inversion H; subst. exists [], t. auto.
  - inversion H as [| | |r1 r2 z1 z2 z3 H1 H2| | | | | | |]; subst.
    inversion H1; subst.
    apply IH in H2 as (s' & t' & -> & E & ->).
    exists (d :: s'), t'. simpl. rewrite E, <- app_assoc.
    repeat split; congruence.
Qed.

Lemma no_word_before_head pre :
  no_word_before pre -> word_at (head (rev pre)) = false.
Proof.
  intros H. destruct pre as [|c pre] using rev_ind; [reflexivity|].
  rewrite rev_app_distr. simpl. exact (H pre c eq_refl).
Qed.

Lemma fixes_12_matches pre post :
  no_word_before pre ->
  test LinkBot.regex (pre ++ js "Fixes #12" ++ post) = true.
Proof.
  intros Hpre. apply test_spec.
  exists pre, (js "Fixes #12" ++ post),
    (rev (js "Fixes #12") ++ rev pre, post).
  split; [reflexivity|].
  change (js "Fixes #12") with (js "Fixes" ++ [32; 35; 49; 50]).
  rewrite <- app_assoc. unfold LinkBot.regex.
  eapply M_Seq.
  { apply M_WordB. unfold before, after. cbn [fst snd].
    rewrite (no_word_before_head _ Hpre). discriminate. }
  eapply M_Seq.
  { apply M_AltL. apply lit_matches_intro. reflexivity. }
  simpl.
  eapply M_Seq.
  { eapply M_StarS; [apply M_Class; reflexivity|unfold remaining; simpl; lia|].
    apply M_Star0. }
  eapply M_Seq; [apply M_AltR, M_Eps|].
  eapply M_Seq; [apply M_Star0|].
  eapply M_Seq.
  { unfold LinkBot.issue_ref, Plus.
    eapply M_Seq; [apply M_Chr; reflexivity|].
    eapply M_Seq; [apply M_Class; reflexivity|].
    eapply M_StarS; [apply M_Class; reflexivity|unfold remaining; simpl; lia|].
    apply M_Star0. }
  apply M_Star0.
Qed.

Lemma canon_lower c d : canon d = canon c -> to_lower d = to_lower c.
Proof.
  unfold canon, to_lower.
  repeat match goal with
         | |- context [?a <=? ?b] => destruct (N.leb_spec a b)
         end; simpl; lia.
Qed.

Lemma map_canon_lower s : forall s',
  List.map canon s' = List.map canon s -> lower s' = lower s.
Proof.
  induction s as [|c s IH]; intros [|d s'] E; try discriminate.
  - reflexivity.
  - simpl in E. injection E as Ec Es. unfold lower. simpl.
    f_equal; [apply canon_lower; exact Ec|apply IH; exact Es].
Qed.

Lemma lower_app a b : lower (a ++ b) = lower a ++ lower b.
Proof. apply List.map_app. Qed.

Lemma keyword_included kw lo pre t z' p :
  lower kw = lo ->
  matches (lit kw) (p, t) z' ->
  includes (lower (pre ++ t)) lo = true.
Proof.
  intros <- H. apply lit_matches_inv in H as (s' & t' & -> & E & _).
  rewrite !lower_app, (map_canon_lower _ _ E). apply includes_app.
Qed.

Lemma regex_match_keyword body :
  test LinkBot.regex body = true -> lacks_closing_keyword body = false.
Proof.
  intros H. apply test_spec in H as (pre & post & z' & -> & H).
  unfold LinkBot.regex in H.
  inversion H as [| | |r1 r2 z1 z2 z3 H1 H2| | | | | | |]; subst. clear H.
  inversion H1; subst. clear H1.
  inversion H2 as [| | |r1 r2 z1 z2 z3 H3 H4| | | | | | |]; subst. clear H2 H4.
  unfold lacks_closing_keyword.
  inversion H3 as [| | | |r1 r2 z1 z3 Hk|r1 r2 z1 z3 Hk| | | | |]; subst.
  - rewrite (keyword_included (js "Fixes") (js "fixes") pre _ _ _ eq_refl Hk).
    reflexivity.
  - clear H3.
    inversion Hk as [| | | |r1 r2 z1 z3 Hk'|r1 r2 z1 z3 Hk'| | | | |]; subst.
    + rewrite (keyword_included (js "Closes") (js "closes") pre _ _ _ eq_refl Hk').
      rewrite andb_false_r. reflexivity.
    + rewrite (keyword_included (js "Resolves") (js "resolves") pre _ _ _ eq_refl Hk').
      rewrite andb_false_r. reflexivity.
Qed.

Lemma lacks_keyword_no_match body :
  lacks_closing_keyword body = true -> test LinkBot.regex body = false.
Proof.
  intros H. destruct (test LinkBot.regex body) eqn:E; [|reflexivity].
  apply regex_match_keyword in E. congruence.
Qed.

Lemma lower_canon c d : to_lower d = to_lower c -> canon d = canon c.
Proof.
  unfold canon, to_lower.
  repeat match goal with
         | |- context [?a <=? ?b] => destruct (N.leb_spec a b)
         end; simpl; lia.
Qed.

Lemma map_lower_canon s : forall s',
  lower s' = lower s -> List.map canon s' = List.map canon s.
Proof.
  induction s as [|c s IH]; intros [|d s'] E; try discriminate.
  - reflexivity.
  - unfold lower in E. simpl in E. injection E as Ec Es. simpl.
    f_equal; [apply lower_canon; exact Ec|apply IH; exact Es].
Qed.

Lemma standalone_unassign_spec body :
  standalone_unassign body <->
  Unassign.commentRequestsUnassign (Some body) = true.
Proof.
  unfold Unassign.commentRequestsUnassign. rewrite test_spec.
  unfold Unassign.unassign_regex. split.
  - intros (pre & tok & post & -> & Htok & Hpre & Hpost).
    assert (Hlit : forall p, matches (lit (js "/unassign"))
                    (p, tok ++ post) (rev tok ++ p, post)).
    { intros p. apply lit_matches_intro, map_lower_canon. exact Htok. }
    assert (Hend : forall p, exists z',
               matches (Alt (Class is_space) Eol) (p, post) z').
    { intros p. destruct Hpost as [->|(c & post' & -> & Hc)].
      - eexists. apply M_AltR, M_Eol.
      - eexists. apply M_AltL, M_Class. exact Hc. }
    destruct Hpre as [->|(pre' & c & -> & Hc)].
    + destruct (Hend (rev tok ++ [])) as [z' Hz].
      exists [], (tok ++ post), z'. split; [reflexivity|].
      eapply M_Seq; [apply M_AltL, M_Bol|].
      eapply M_Seq; [apply Hlit|exact Hz].
    + destruct (Hend (rev tok ++ c :: rev pre')) as [z' Hz].
      exists pre', (c :: tok ++ post), z'.
      split; [rewrite <- app_assoc; reflexivity|].
      eapply M_Seq; [apply M_AltR, M_Class; exact Hc|].
      eapply M_Seq; [apply Hlit|exact Hz].
  - intros (pre & post & z' & -> & H).
    inversion H as [| | |r1 r2 z1 z2 z3 H1 H2| | | | | | |]; subst. clear H.
    inversion H2 as [| | |r1 r2 z1 z4 z3 H3 H4| | | | | | |]; subst. clear H2.
    assert (Htail : forall p t z,
              matches (lit (js "/unassign")) (p, t) z ->
              matches (Alt (Class is_space) Eol) z z' ->
              exists tok post', t = tok ++ post' /\ lower tok = js "/unassign" /\
                (post' = [] \/ exists c post'', post' = c :: post'' /\
                                              is_space c = true)).
    { intros p t z Hl He.
      apply lit_matches_inv in Hl as (tok & post' & -> & E & ->).
      exists tok, post'. split; [reflexivity|].
      split; [exact (map_canon_lower _ _ E)|].
      inversion He as [| | | |r1 r2 z1 z3 Hk|r1 r2 z1 z3 Hk| | | | |]; subst;
        inversion Hk; subst; eauto. }
    inversion H1 as [| | | |r1 r2 z1 z3 Hk|r1 r2 z1 z3 Hk| | | | |]; subst;
      inversion Hk; subst.
    + destruct (Htail _ _ _ H3 H4) as (tok & post' & -> & Ht & Hp).
      assert (pre = []) as -> by (destruct pre using rev_ind;
        [reflexivity|rewrite rev_app_distr in *; discriminate]).
      exists [], tok, post'. auto.
    + destruct (Htail _ _ _ H3 H4) as (tok & post' & -> & Ht & Hp).
      exists (pre ++ [d]), tok, post'. rewrite <- app_assoc.
      repeat split; eauto.
Qed.

(** ** The guards of the unassign bot *)

Lemma invalid_context issue comment :
  precondition_fails issue comment <->
  Unassign.isValidUnassignContext issue comment = false.
Proof.
  unfold precondition_fails, Unassign.isValidUnassignContext, Unassign.commenter.
  split.
  - intros [H|[(i & -> & H)|[H|[H|[H|H]]]]].
    + rewrite H. reflexivity.
    + cbn. rewrite H, orb_true_r. reflexivity.
    + rewrite H. cbn. destruct (_ || _); reflexivity.
    + rewrite H. cbn. rewrite orb_true_r. destruct (_ || _); reflexivity.
    + apply is_str_true in H. rewrite H.
      repeat (destruct (_ || _); try reflexivity).
    + apply is_str_false in H. rewrite H.
      repeat match goal with |- (if ?b then _ else _) = _ => destruct b; try reflexivity end.
  - intros H.
    destruct (truthy_num _) eqn:E1; [|tauto].
    destruct issue as [i|]; [|discriminate]. cbn in H.
    destruct (issue_pull_request i) eqn:E2; [right; left; eauto|].
    destruct (truthy_str (c ← comment; comment_body c)) eqn:E3; [|tauto].
    destruct (truthy_str _) eqn:E4 in H; [|tauto].
    cbn in H.
    destruct (is_str _ (js "Bot")) eqn:E5 in H.
    { apply is_str_true in E5. tauto. }
    destruct (is_str _ (js "open")) eqn:E6 in H; [discriminate|].
    apply is_str_false in E6. cbn. tauto.
Qed.

(** What a valid context provides. *)
Lemma valid_context issue comment :
  Unassign.isValidUnassignContext issue comment = true ->
  exists i n u,
    issue = Some i /\ issue_number i = Some n /\ n <> 0%Z /\
    Unassign.commenter comment = Some u.
Proof.
  unfold Unassign.isValidUnassignContext. intros H.
  destruct (truthy_num _) eqn:E1; [|discriminate].
  destruct issue as [i|]; [|discriminate]. cbn in E1, H.
  destruct (issue_number i) as [n|] eqn:En; [|discriminate].
  destruct (issue_pull_request i); [discriminate|].
  destruct (truthy_str (c ← comment; comment_body c)); [|discriminate].
  fold (Unassign.commenter comment) in H.
  destruct (Unassign.commenter comment) as [u|] eqn:Eu; [|discriminate].
  exists i, n, u. split; [reflexivity|]. split; [exact En|].
  split; [|reflexivity].
  intros ->. discriminate.
Qed.

Lemma not_assignee_false issue u :
  not_assignee issue u ->
  default false (Unassign.isCurrentAssignee issue u) = false.
Proof.
  unfold not_assignee, Unassign.isCurrentAssignee. intros H.
  destruct (issue_assignees issue) as [l|]; [|reflexivity]. cbn.
  apply not_true_is_false. intros E. apply existsb_exists in E as (a & Ha & E).
  apply is_str_true in E. exact (H l a eq_refl Ha E).
Qed.

Lemma valid_not_fails issue comment :
  ~ precondition_fails issue comment ->
  Unassign.isValidUnassignContext issue comment = true.
Proof.
  intros H. destruct (Unassign.isValidUnassignContext issue comment) eqn:E;
    [reflexivity|]. apply invalid_context in E. contradiction.
Qed.

(** ** Runs of the two handlers against any REST client *)

Section Runs.
Context {W : Type} (api : Api W).

(** *** The notifier *)

Lemma linkbot_handler_run (ctx : Context) (env : Env) (w : W) :
  exec api (LinkBot.handler ctx env) w =
  match exec api (LinkBot.attempt ctx env) w with
  | (Returned a, w1, t) => (Returned a, w1, t)
  | (Raised e, w1, t) => (Raised e, w1, t ++ linkbot_report_lines ctx env e)
  end.
Proof.
  unfold LinkBot.handler. rewrite exec_try_catch.
  destruct (exec api (LinkBot.attempt ctx env) w) as [[[a|e] w1] t];
    reflexivity.
Qed.

Lemma attempt_undetermined ctx env w :
  truthy_num (LinkBot.prNumber ctx env) = false ->
  exec api (LinkBot.attempt ctx env) w =
  (Raised (mkError (js "PR number could not be determined") None), w, []).
Proof.
  unfold LinkBot.attempt, truthy_num.
  destruct (LinkBot.prNumber ctx env) as [n|]; [|reflexivity].
  destruct (n =? 0)%Z; [reflexivity|discriminate].
Qed.

Lemma attempt_run ctx env w n :
  LinkBot.prNumber ctx env = Some n -> n <> 0%Z ->
  exec api (LinkBot.attempt ctx env) w =
  match exec api (LinkBot.fetch ctx n) w with
  | (Returned pr, w0, t0) =>
      let '(o, w1, t1) := exec api (LinkBot.check ctx env n pr) w0 in
      (o, w1, processing_line env n :: t0 ++ t1)
  | (Raised e, w0, t0) => (Raised e, w0, processing_line env n :: t0)
  end.
Proof.
  intros Hn Hz. unfold LinkBot.attempt. rewrite Hn.
  apply Z.eqb_neq in Hz. rewrite Hz. cbn. rewrite exec_bind.
  destruct (exec api (LinkBot.fetch ctx n) w) as [[[pr|e] w0] t0];
    [|reflexivity].
  destruct (exec api (LinkBot.check ctx env n pr) w0) as [[o w1] t1].
  reflexivity.
Qed.

(** The two ways [prData] is obtained. *)
Lemma fetch_run ctx n w :
  exec api (LinkBot.fetch ctx n) w =
  match payload_pull_request (context_payload ctx) with
  | Some pr => (Returned pr, w, [])
  | None =>
      let c := pulls_get (repo_owner (context_repo ctx))
                         (repo_repo (context_repo ctx)) n in
      match api _ c w with
      | (inl e, w0) => (Raised e, w0, [EvCall c (inl e)])
      | (inr pr, w0) => (Returned pr, w0, [EvCall c (inr pr)])
      end
  end.
Proof.
  unfold LinkBot.fetch.
  destruct (payload_pull_request (context_payload ctx)) as [pr|];
    [reflexivity|].
  cbn. destruct (api _ _ w) as [[e|pr] w0]; reflexivity.
Qed.

Lemma check_bot ctx env n pr w0 :
  LinkBot.bot_author pr = true ->
  outcome (exec api (LinkBot.check ctx env n pr) w0) = Returned tt /\
  final (exec api (LinkBot.check ctx env n pr) w0) = w0 /\
  calls (trace (exec api (LinkBot.check ctx env n pr) w0)) = [].
Proof.
  intros H. unfold LinkBot.check. rewrite H. cbn. auto.
Qed.

Lemma check_run ctx env n pr w0 :
  LinkBot.bot_author pr = false ->
  exec api (LinkBot.check ctx env n pr) w0 =
  match api _ (list_call ctx n) w0 with
  | (inl e, w1) => (Raised e, w1, [EvCall (list_call ctx n) (inl e)])
  | (inr comments, w1) =>
      let listed := EvCall (list_call ctx n) (inr comments) in
      if LinkBot.alreadyCommented comments then
        (Returned tt, w1,
         [listed;
          EvConsole log [VStr (js "LinkBot already commented on this PR")]])
      else if test LinkBot.regex (LinkBot.body pr) then
        (Returned tt, w1,
         [listed;
          EvConsole log [VStr (js "PR has linked issue - no comment needed")]])
      else if LinkBot.isDryRun env then
        (Returned tt, w1,
         [listed;
          EvConsole log [VStr (js "DRY RUN: Would post the following comment:")];
          EvConsole log [VStr (js "---")];
          EvConsole log [VStr (LinkBot.commentBody ctx pr)];
          EvConsole log [VStr (js "---")]])
      else
        match api _ (create_call ctx n pr) w1 with
        | (inl e, w2) =>
            (Raised e, w2, [listed; EvCall (create_call ctx n pr) (inl e)])
        | (inr u, w2) =>
            (Returned tt, w2,
             [listed; EvCall (create_call ctx n pr) (inr u);
              EvConsole log [VStr (js "LinkBot comment posted successfully")]])
        end
  end.
Proof.
  intros H. unfold LinkBot.check, list_call, create_call. rewrite H. cbn.
  destruct (api _ _ w0) as [[e|comments] w1]; cbn; [reflexivity|].
  destruct (LinkBot.alreadyCommented comments); cbn; [reflexivity|].
  destruct (test LinkBot.regex (LinkBot.body pr)); cbn; [reflexivity|].
  destruct (LinkBot.isDryRun env); cbn; [reflexivity|].
  destruct (api _ _ w1) as [[e|u] w2]; cbn; reflexivity.
Qed.

Lemma fetch_quiet ctx n w :
  posted (trace (exec api (LinkBot.fetch ctx n) w)) = [] /\
  mutations (trace (exec api (LinkBot.fetch ctx n) w)) = [].
Proof.
  rewrite fetch_run.
  destruct (payload_pull_request (context_payload ctx)); [auto|].
  cbv zeta. destruct (api _ _ w) as [[e|pr] w0]; auto.
Qed.

(** Runs of the notifier that post nothing. *)
Lemma quiet_run ctx env w :
  (forall n pr w0 t0,
     LinkBot.prNumber ctx env = Some n -> n <> 0%Z ->
     exec api (LinkBot.fetch ctx n) w = (Returned pr, w0, t0) ->
     LinkBot.bot_author pr = false ->
     test LinkBot.regex (LinkBot.body pr) = true \/ LinkBot.isDryRun env = true) ->
  posted (trace (exec api (LinkBot.handler ctx env) w)) = [] /\
  mutations (trace (exec api (LinkBot.handler ctx env) w)) = [].
Proof.
  intros H. rewrite linkbot_handler_run.
  destruct (truthy_num (LinkBot.prNumber ctx env)) eqn:Hn.
  2:{ rewrite attempt_undetermined by exact Hn. auto. }
  destruct (LinkBot.prNumber ctx env) as [n|] eqn:En; [|discriminate].
  assert (Hz : n <> 0%Z) by (intros ->; discriminate).
  rewrite (attempt_run _ _ _ n En Hz).
  destruct (fetch_quiet ctx n w) as [Hp Hm].
  destruct (exec api (LinkBot.fetch ctx n) w) as [[[pr|e] w0] t0] eqn:Hf.
  2:{ unfold trace in *. cbn [snd] in *. traces. rewrite Hp, Hm. auto. }
  unfold trace in Hp, Hm. cbn [snd] in Hp, Hm.
  destruct (LinkBot.bot_author pr) eqn:Hb.
  { destruct (check_bot ctx env n pr w0 Hb) as (Ho & _ & Hc).
    destruct (exec api (LinkBot.check ctx env n pr) w0) as [[o w1] t1].
    unfold outcome, trace in *. cbn [fst snd] in *. subst o.
    traces. rewrite Hp, Hm, (calls_posted _ Hc), (calls_mutations _ Hc). auto. }
  specialize (H n pr w0 t0 eq_refl Hz Hf Hb).
  rewrite (check_run _ _ _ _ _ Hb).
  destruct (api _ _ w0) as [[e|comments] w1].
  { traces. rewrite Hp, Hm. auto. }
  cbv zeta. destruct (LinkBot.alreadyCommented comments).
  { traces. rewrite Hp, Hm. auto. }
  destruct (test LinkBot.regex (LinkBot.body pr)).
  { traces. rewrite Hp, Hm. auto. }
  destruct H as [H|H]; [discriminate|]. rewrite H.
  traces. rewrite Hp, Hm. auto.
Qed.

Lemma fetch_faithful ctx n w : faithful (exec api (LinkBot.fetch ctx n) w).
Proof.
  unfold faithful. rewrite fetch_run.
  destruct (payload_pull_request (context_payload ctx)); [reflexivity|].
  cbv zeta. destruct (api _ _ w) as [[e|pr] w0]; reflexivity.
Qed.

Lemma check_faithful ctx env n pr w0 :
  faithful (exec api (LinkBot.check ctx env n pr) w0).
Proof.
  unfold faithful.
  destruct (LinkBot.bot_author pr) eqn:Hb.
  { destruct (check_bot ctx env n pr w0 Hb) as (Ho & _ & Hc).
    rewrite Ho, <- failures_calls, Hc. reflexivity. }
  rewrite (check_run _ _ _ _ _ Hb).
  destruct (api _ _ w0) as [[e|comments] w1]; [reflexivity|].
  cbv zeta. destruct (LinkBot.alreadyCommented comments); [reflexivity|].
  destruct (test LinkBot.regex (LinkBot.body pr)); [reflexivity|].
  destruct (LinkBot.isDryRun env); [reflexivity|].
  destruct (api _ _ w1) as [[e|u] w2]; reflexivity.
Qed.

Lemma linkbot_attempt_faithful ctx env w :
  truthy_num (LinkBot.prNumber ctx env) = true ->
  faithful (exec api (LinkBot.attempt ctx env) w).
Proof.
  intros Hn.
  destruct (LinkBot.prNumber ctx env) as [n|] eqn:En; [|discriminate].
  assert (Hz : n <> 0%Z) by (intros ->; discriminate).
  rewrite (attempt_run _ _ _ n En Hz).
  pose proof (fetch_faithful ctx n w) as Hf.
  destruct (exec api (LinkBot.fetch ctx n) w) as [[[pr|e] w0] t0].
  2:{ unfold faithful in *. traces. exact Hf. }
  pose proof (check_faithful ctx env n pr w0) as Hc.
  destruct (exec api (LinkBot.check ctx env n pr) w0) as [[o w1] t1].
  unfold faithful, outcome, trace in *. cbn [fst snd] in *.
  traces. rewrite Hf. exact Hc.
Qed.

(** *** The unassign bot *)

Lemma unassign_handler_run (ctx : Context) (w : W) :
  exec api (Unassign.handler ctx) w =
  match exec api (Unassign.attempt ctx) w with
  | (Returned a, w1, t) => (Returned a, w1, t)
  | (Raised e, w1, t) => (Raised e, w1, t ++ unassign_report_lines ctx e)
  end.
Proof.
  unfold Unassign.handler. rewrite exec_try_catch.
  destruct (exec api (Unassign.attempt ctx) w) as [[[a|e] w1] t];
    reflexivity.
Qed.

Lemma invalid_context_run ctx w : 
  Unassign.isValidUnassignContext (payload_issue (context_payload ctx))
    (payload_comment (context_payload ctx)) = false ->
  outcome (exec api (Unassign.handler ctx) w) = Returned tt /\
  calls (trace (exec api (Unassign.handler ctx) w)) = [] /\
  final (exec api (Unassign.handler ctx) w) = w.
Proof.
  intros H. rewrite unassign_handler_run.
  unfold Unassign.attempt. rewrite H. cbn. auto.
Qed.

Lemma not_assignee_run ctx w issue u :
  payload_issue (context_payload ctx) = Some issue ->
  Unassign.commenter (payload_comment (context_payload ctx)) = Some u ->
  default false (Unassign.isCurrentAssignee issue u) = false ->
  outcome (exec api (Unassign.handler ctx) w) = Returned tt /\
  calls (trace (exec api (Unassign.handler ctx) w)) = [] /\
  final (exec api (Unassign.handler ctx) w) = w.
Proof.
  intros Hi Hu Ha.
  destruct (Unassign.isValidUnassignContext (payload_issue (context_payload ctx))
    (payload_comment (context_payload ctx))) eqn:Hv;
    [|by apply invalid_context_run].
  rewrite unassign_handler_run. unfold Unassign.attempt. rewrite Hv.
  destruct (valid_context _ _ Hv) as (i & n & u' & Hi' & Hn & _ & Hu').
  rewrite Hi in *. rewrite Hu in *. simplify_eq. 
  destruct (Unassign.commentRequestsUnassign _); cbn; [|auto].
  rewrite Hn. cbn. unfold Unassign.proceed. rewrite Ha. cbn. auto.
Qed.

(** The calls of a run are those of its [try] block. *)
Lemma unassign_handler_calls ctx w :
  outcome (exec api (Unassign.handler ctx) w)
  = outcome (exec api (Unassign.attempt ctx) w) /\
  final (exec api (Unassign.handler ctx) w)
  = final (exec api (Unassign.attempt ctx) w) /\
  calls (trace (exec api (Unassign.handler ctx) w))
  = calls (trace (exec api (Unassign.attempt ctx) w)).
Proof.
  rewrite unassign_handler_run.
  destruct (exec api (Unassign.attempt ctx) w) as [[[a|e] w1] t]; auto.
  unfold trace; cbn [snd]. rewrite calls_app, app_nil_r. auto.
Qed.

Lemma unassign_attempt_run ctx w issue u n :
  payload_issue (context_payload ctx) = Some issue ->
  Unassign.isValidUnassignContext (payload_issue (context_payload ctx))
    (payload_comment (context_payload ctx)) = true ->
  Unassign.commentRequestsUnassign
    (c ← payload_comment (context_payload ctx); comment_body c) = true ->
  Unassign.commenter (payload_comment (context_payload ctx)) = Some u ->
  issue_number issue = Some n ->
  Unassign.isCurrentAssignee issue u = Some true ->
  let r := exec api (Unassign.attempt ctx) w in
  (outcome r, final r, calls (trace r)) =
  match api _ (paginate_call ctx n) w with
  | (inl e, w1) => (Raised e, w1, [EvCall (paginate_call ctx n) (inl e)])
  | (inr comments, w1) =>
      let listed := EvCall (paginate_call ctx n) (inr comments) in
      if Unassign.alreadyUnassigned comments (Unassign.buildUnassignMarker u)
      then (Returned tt, w1, [listed])
      else
        match api _ (remove_call ctx n u) w1 with
        | (inl e, w2) =>
            (Raised e, w2, [listed; EvCall (remove_call ctx n u) (inl e)])
        | (inr x, w2) =>
            let removed := EvCall (remove_call ctx n u) (inr x) in
            match api _ (confirm_call ctx n u) w2 with
            | (inl e, w3) =>
                (Raised e, w3,
                 [listed; removed; EvCall (confirm_call ctx n u) (inl e)])
            | (inr y, w3) =>
                (Returned tt, w3,
                 [listed; removed; EvCall (confirm_call ctx n u) (inr y)])
            end
        end
  end.
Proof.
  intros Hi Hv Hr Hu Hn Ha. unfold Unassign.attempt.
  rewrite Hv, Hr, Hu, Hi. cbn. rewrite Hn. unfold Unassign.proceed.
  rewrite Ha. cbn.
  unfold paginate_call, remove_call, confirm_call, confirmation.
  destruct (api _ _ w) as [[e|comments] w1]; cbn; [reflexivity|].
  destruct (Unassign.alreadyUnassigned comments _); cbn; [reflexivity|].
  destruct (api _ _ w1) as [[e|x] w2]; cbn; [reflexivity|].
  destruct (api _ _ w2) as [[e|y] w3]; cbn; reflexivity.
Qed.

(** A run of the [try] block that makes no call returns. *)
Lemma unassign_attempt_cases ctx w :
  (outcome (exec api (Unassign.attempt ctx) w) = Returned tt /\
   final (exec api (Unassign.attempt ctx) w) = w /\
   calls (trace (exec api (Unassign.attempt ctx) w)) = []) \/
  exists issue u n,
    payload_issue (context_payload ctx) = Some issue /\
    Unassign.isValidUnassignContext (payload_issue (context_payload ctx))
      (payload_comment (context_payload ctx)) = true /\
    Unassign.commentRequestsUnassign
      (c ← payload_comment (context_payload ctx); comment_body c) = true /\
    Unassign.commenter (payload_comment (context_payload ctx)) = Some u /\
    issue_number issue = Some n /\
    Unassign.isCurrentAssignee issue u = Some true.
Proof.
  destruct (Unassign.isValidUnassignContext (payload_issue (context_payload ctx))
    (payload_comment (context_payload ctx))) eqn:Hv.
  2:{ left. unfold Unassign.attempt. rewrite Hv. cbn. auto. }
  destruct (Unassign.commentRequestsUnassign
    (c ← payload_comment (context_payload ctx); comment_body c)) eqn:Hr.
  2:{ left. unfold Unassign.attempt. rewrite Hv, Hr. cbn. auto. }
  destruct (valid_context _ _ Hv) as (i & n & u & Hi & Hn & _ & Hu).
  destruct (Unassign.isCurrentAssignee i u) as [[|]|] eqn:Ha.
  - right. exists i, u, n. repeat split; assumption.
  - left. unfold Unassign.attempt. rewrite Hv, Hr, Hu, Hi. cbn. rewrite Hn.
    unfold Unassign.proceed. rewrite Ha. cbn. auto.
  - left. unfold Unassign.attempt. rewrite Hv, Hr, Hu, Hi. cbn. rewrite Hn.
    unfold Unassign.proceed. rewrite Ha. cbn. auto.
Qed.

Lemma unassign_run ctx w issue u n :
  payload_issue (context_payload ctx) = Some issue ->
  Unassign.isValidUnassignContext (payload_issue (context_payload ctx))
    (payload_comment (context_payload ctx)) = true ->
  Unassign.commentRequestsUnassign
    (c ← payload_comment (context_payload ctx); comment_body c) = true ->
  Unassign.commenter (payload_comment (context_payload ctx)) = Some u ->
  issue_number issue = Some n ->
  Unassign.isCurrentAssignee issue u = Some true ->
  let r := exec api (Unassign.handler ctx) w in
  (outcome r, final r, calls (trace r)) =
  match api _ (paginate_call ctx n) w with
  | (inl e, w1) => (Raised e, w1, [EvCall (paginate_call ctx n) (inl e)])
  | (inr comments, w1) =>
      let listed := EvCall (paginate_call ctx n) (inr comments) in
      if Unassign.alreadyUnassigned comments (Unassign.buildUnassignMarker u)
      then (Returned tt, w1, [listed])
      else
        match api _ (remove_call ctx n u) w1 with
        | (inl e, w2) =>
            (Raised e, w2, [listed; EvCall (remove_call ctx n u) (inl e)])
        | (inr x, w2) =>
            let removed := EvCall (remove_call ctx n u) (inr x) in
            match api _ (confirm_call ctx n u) w2 with
            | (inl e, w3) =>
                (Raised e, w3,
                 [listed; removed; EvCall (confirm_call ctx n u) (inl e)])
            | (inr y, w3) =>
                (Returned tt, w3,
                 [listed; removed; EvCall (confirm_call ctx n u) (inr y)])
            end
        end
  end.
Proof.
  intros Hi Hv Hr Hu Hn Ha.
  destruct (unassign_handler_calls ctx w) as (Ho & Hf & Hc).
  cbv zeta. rewrite Ho, Hf, Hc.
  exact (unassign_attempt_run ctx w issue u n Hi Hv Hr Hu Hn Ha).
Qed.

Lemma unassign_cases ctx w :
  (outcome (exec api (Unassign.handler ctx) w) = Returned tt /\
   final (exec api (Unassign.handler ctx) w) = w /\
   calls (trace (exec api (Unassign.handler ctx) w)) = []) \/
  exists issue u n,
    payload_issue (context_payload ctx) = Some issue /\
    Unassign.isValidUnassignContext (payload_issue (context_payload ctx))
      (payload_comment (context_payload ctx)) = true /\
    Unassign.commentRequestsUnassign
      (c ← payload_comment (context_payload ctx); comment_body c) = true /\
    Unassign.commenter (payload_comment (context_payload ctx)) = Some u /\
    issue_number issue = Some n /\
    Unassign.isCurrentAssignee issue u = Some true.
Proof.
  destruct (unassign_handler_calls ctx w) as (Ho & Hf & Hc).
  rewrite Ho, Hf, Hc. apply unassign_attempt_cases.
Qed.
Lemma unassign_attempt_faithful ctx w :
  faithful (exec api (Unassign.attempt ctx) w).
Proof.
  unfold faithful. rewrite <- failures_calls.
  destruct (unassign_attempt_cases ctx w) as [(Ho & _ & Hc)|H].
  { rewrite Ho, Hc. reflexivity. }
  destruct H as (issue & u & n & Hi & Hv & Hr & Hu & Hn & Ha).
  pose proof (unassign_attempt_run ctx w issue u n Hi Hv Hr Hu Hn Ha) as E.
  cbv zeta in E.
  generalize dependent (calls (trace (exec api (Unassign.attempt ctx) w))).
  generalize dependent (outcome (exec api (Unassign.attempt ctx) w)).
  generalize dependent (final (exec api (Unassign.attempt ctx) w)).
  intros wf o cs E.
  destruct (api _ (paginate_call ctx n) w) as [[e|comments] w1].
  { injection E as -> _ ->. reflexivity. }
  cbv zeta in E.
  destruct (Unassign.alreadyUnassigned comments _).
  { injection E as -> _ ->. reflexivity. }
  destruct (api _ (remove_call ctx n u) w1) as [[e|x] w2].
  { injection E as -> _ ->. reflexivity. }
  destruct (api _ (confirm_call ctx n u) w2) as [[e|y] w3];
    injection E as -> _ ->; reflexivity.
Qed.

(** *** The claims that hold for every client *)

(** C4 (as amended): when the body of the pull request matches the
    closing-keyword pattern of the notifier, and in particular when it holds
    "Fixes #12" at its start or right after a character that is not a word
    character, the notifier posts no comment and makes no mutating call. *)
Theorem C4_linked_issue_no_comment (ctx : Context) (env : Env) (w : W)
    (n : Z) (pr : PullRequest) (w0 : W) (t0 : list Event) :
  LinkBot.prNumber ctx env = Some n ->
  exec api (LinkBot.fetch ctx n) w = (Returned pr, w0, t0) ->
  (test LinkBot.regex (LinkBot.body pr) = true \/
   exists pre post, LinkBot.body pr = pre ++ js "Fixes #12" ++ post /\
                    no_word_before pre) ->
  posted (trace (exec api (LinkBot.handler ctx env) w)) = [] /\
  mutations (trace (exec api (LinkBot.handler ctx env) w)) = [].
Proof.
  intros Hn Hf H. apply quiet_run.
  intros n' pr' w0' t0' Hn' _ Hf' _. left.
  rewrite Hn in Hn'. injection Hn' as <-. rewrite Hf in Hf'.
  injection Hf' as <- _ _.
  destruct H as [H|(pre & post & -> & Hpre)]; [exact H|].
  apply fixes_12_matches. exact Hpre.
Qed.

(** C5: when a precondition of the unassign handler fails (issue missing or
    a pull request, comment without body or without non-bot author, issue
    not open), the handler returns normally, makes no API call at all, hence
    no mutation, and leaves the service as it was, whatever the comment
    says. *)
Theorem C5_failed_precondition_no_mutation (ctx : Context) (w : W) :
  precondition_fails (payload_issue (context_payload ctx))
                     (payload_comment (context_payload ctx)) ->
  outcome (exec api (Unassign.handler ctx) w) = Returned tt /\
  mutations (trace (exec api (Unassign.handler ctx) w)) = [] /\
  calls (trace (exec api (Unassign.handler ctx) w)) = [] /\
  final (exec api (Unassign.handler ctx) w) = w.
Proof.
  intros H. apply invalid_context in H.
  destruct (invalid_context_run ctx w H) as (Ho & Hc & Hf).
  auto using calls_mutations.
Qed.

(** C6: a comment with a standalone /unassign token whose author is not
    among the assignees of the issue makes the handler return without any
    API call, hence without mutation. *)
Theorem C6_non_assignee_no_mutation (ctx : Context) (w : W)
    (issue : Issue) (comment : Comment) (body username : jsstring) :
  payload_issue (context_payload ctx) = Some issue ->
  payload_comment (context_payload ctx) = Some comment ->
  comment_body comment = Some body ->
  standalone_unassign body ->
  Unassign.commenter (Some comment) = Some username ->
  not_assignee issue username ->
  outcome (exec api (Unassign.handler ctx) w) = Returned tt /\
  mutations (trace (exec api (Unassign.handler ctx) w)) = [] /\
  calls (trace (exec api (Unassign.handler ctx) w)) = [] /\
  final (exec api (Unassign.handler ctx) w) = w.
Proof.
  intros Hi Hc _ _ Hu Ha.
  destruct (not_assignee_run ctx w issue username) as (Ho & Hcalls & Hf);
    auto using calls_mutations, not_assignee_false.
  rewrite Hc. exact Hu.
Qed.

(** C7: a pull request whose author is a bot account (type "Bot", or a
    login that ends in "[bot]") gets no comment from the notifier, and no
    other mutating call is made, whatever its body is. *)
Theorem C7_bot_pr_no_comment (ctx : Context) (env : Env) (w : W) (n : Z)
    (pr : PullRequest) (w0 : W) (t0 : list Event) :
  LinkBot.prNumber ctx env = Some n ->
  exec api (LinkBot.fetch ctx n) w = (Returned pr, w0, t0) ->
  LinkBot.bot_author pr = true ->
  posted (trace (exec api (LinkBot.handler ctx env) w)) = [] /\
  mutations (trace (exec api (LinkBot.handler ctx env) w)) = [].
Proof.
  intros Hn Hf Hb. rewrite linkbot_handler_run.
  destruct (Z.eq_dec n 0%Z) as [->|Hz].
  { rewrite attempt_undetermined by (rewrite Hn; reflexivity). auto. }
  rewrite (attempt_run _ _ _ n Hn Hz).
  destruct (fetch_quiet ctx n w) as [Hp Hm]. rewrite Hf in *.
  destruct (check_bot ctx env n pr w0 Hb) as (Ho & _ & Hc).
  destruct (exec api (LinkBot.check ctx env n pr) w0) as [[o w1] t1].
  unfold outcome, trace in *. cbn [fst snd] in *. subst o.
  traces. rewrite Hp, Hm, (calls_posted _ Hc), (calls_mutations _ Hc). auto.
Qed.

(** C9: with DRY_RUN equal to 'true' the notifier makes no mutating call;
    whenever the same run without the flag would post a comment, the dry run
    writes the body of that comment to the console instead. *)
Theorem C9_dry_run_no_mutation (ctx : Context) (env : Env) (w : W) :
  LinkBot.isDryRun env = true ->
  mutations (trace (exec api (LinkBot.handler ctx env) w)) = [] /\
  posted (trace (exec api (LinkBot.handler ctx env) w)) = [] /\
  forall env' b,
    env_PR_NUMBER env' = env_PR_NUMBER env ->
    In b (posted (trace (exec api (LinkBot.handler ctx env') w))) ->
    In (log, [VStr b])
       (console_lines (trace (exec api (LinkBot.handler ctx env) w))).
Proof.
  intros Hd.
  destruct (quiet_run ctx env w) as [Hp Hm]; [auto|].
  split; [exact Hm|]. split; [exact Hp|].
  intros env' b He. 
  assert (En : LinkBot.prNumber ctx env' = LinkBot.prNumber ctx env).
  { unfold LinkBot.prNumber. rewrite He. reflexivity. }
  rewrite !linkbot_handler_run.
  destruct (truthy_num (LinkBot.prNumber ctx env)) eqn:Hn.
  2:{ rewrite !attempt_undetermined by (rewrite ?En; exact Hn). intros []. }
  destruct (LinkBot.prNumber ctx env) as [n|] eqn:En'; [|discriminate].
  assert (Hz : n <> 0%Z) by (intros ->; discriminate).
  rewrite (attempt_run ctx env' _ n En Hz), (attempt_run ctx env _ n En' Hz).
  destruct (fetch_quiet ctx n w) as [Hfp _].
  destruct (exec api (LinkBot.fetch ctx n) w) as [[[pr|e] w0] t0] eqn:Hf.
  2:{ unfold trace in *. cbn [snd] in *. traces. rewrite Hfp. intros []. }
  unfold trace in Hfp. cbn [snd] in Hfp.
  destruct (LinkBot.bot_author pr) eqn:Hb.
  { destruct (check_bot ctx env' n pr w0 Hb) as (Ho & _ & Hc).
    destruct (exec api (LinkBot.check ctx env' n pr) w0) as [[o w1] t1].
    unfold outcome, trace in Ho, Hc. cbn [fst snd] in Ho, Hc. subst o.
    traces. rewrite Hfp, (calls_posted _ Hc). intros []. }
  rewrite !(check_run _ _ _ _ _ Hb).
  destruct (api _ _ w0) as [[e|comments] w1].
  { traces. rewrite Hfp. intros []. }
  cbv zeta. destruct (LinkBot.alreadyCommented comments).
  { traces. rewrite Hfp. intros []. }
  destruct (test LinkBot.regex (LinkBot.body pr)).
  { traces. rewrite Hfp. intros []. }
  rewrite Hd. destruct (LinkBot.isDryRun env').
  { traces. rewrite Hfp. intros []. }
  destruct (api _ _ w1) as [[e|u] w2]; traces; rewrite Hfp; cbn;
    (intros [<-|[]]; right; apply in_or_app; right; cbn; auto).
Qed.

(** C10: for a pull request of a non-bot author whose body is missing or
    null the body is taken to be the empty string, which the pattern does
    not match; when the listed comments carry no marker and the run is not a
    dry run, the notifier posts the reminder comment. *)
Theorem C10_missing_body_gets_reminder (ctx : Context) (env : Env) (w : W)
    (n : Z) (pr : PullRequest) (w0 : W) (t0 : list Event)
    (comments : list Comment) (w1 : W) :
  LinkBot.prNumber ctx env = Some n -> n <> 0%Z ->
  exec api (LinkBot.fetch ctx n) w = (Returned pr, w0, t0) ->
  LinkBot.bot_author pr = false ->
  pr_body pr = None ->
  api _ (list_call ctx n) w0 = (inr comments, w1) ->
  LinkBot.alreadyCommented comments = false ->
  LinkBot.isDryRun env = false ->
  LinkBot.body pr = [] /\
  test LinkBot.regex (LinkBot.body pr) = false /\
  posted (trace (exec api (LinkBot.handler ctx env) w))
  = [LinkBot.commentBody ctx pr].
Proof.
  intros Hn Hz Hf Hb Hbody Hl Hc Hd.
  assert (E : LinkBot.body pr = []) by (unfold LinkBot.body; rewrite Hbody; reflexivity).
  rewrite E. split; [reflexivity|]. split; [vm_compute; reflexivity|].
  rewrite linkbot_handler_run, (attempt_run _ _ _ n Hn Hz).
  destruct (fetch_quiet ctx n w) as [Hp _]. rewrite Hf in *.
  unfold trace in Hp. cbn [snd] in Hp.
  rewrite (check_run _ _ _ _ _ Hb), Hl. cbv zeta. rewrite Hc, E, Hd.
  replace (test LinkBot.regex []) with false by (vm_compute; reflexivity).
  destruct (api _ _ w1) as [[e|u] w2]; traces; rewrite Hp; reflexivity.
Qed.

(** C3 (as amended): for a valid /unassign request, the handler decides
    whether the commenter is an assignee on the assignee list carried by the
    event payload, without any call; the comment history it decides on is
    fetched at run time, by the paginated listing that is its first call,
    and the response alone decides between no mutation and the removal. *)
Theorem C3_history_from_api_assignees_from_event (ctx : Context) (w : W)
    (issue : Issue) (u : jsstring) (n : Z) :
  payload_issue (context_payload ctx) = Some issue ->
  Unassign.isValidUnassignContext (payload_issue (context_payload ctx))
    (payload_comment (context_payload ctx)) = true ->
  Unassign.commentRequestsUnassign
    (c ← payload_comment (context_payload ctx); comment_body c) = true ->
  Unassign.commenter (payload_comment (context_payload ctx)) = Some u ->
  issue_number issue = Some n ->
  let r := exec api (Unassign.handler ctx) w in
  (Unassign.isCurrentAssignee issue u <> Some true ->
   calls (trace r) = [] /\ final r = w) /\
  (Unassign.isCurrentAssignee issue u = Some true ->
   exists res w1,
     api _ (paginate_call ctx n) w = (res, w1) /\
     head (calls (trace r)) = Some (EvCall (paginate_call ctx n) res) /\
     match res with
     | inl e => outcome r = Raised e /\ mutations (trace r) = []
     | inr comments =>
         if Unassign.alreadyUnassigned comments (Unassign.buildUnassignMarker u)
         then mutations (trace r) = []
         else head (mutations (trace r))
              = Some (EvCall (remove_call ctx n u)
                             (fst (api _ (remove_call ctx n u) w1)))
     end).
Proof.
  intros Hi Hv Hr Hu Hn r. subst r.
  destruct (unassign_handler_calls ctx w) as (Ho & Hf & Hc).
  split.
  - intros Ha.
    destruct (unassign_attempt_cases ctx w) as [(_ & Hw & Hcalls)|H].
    + rewrite Hc, Hf. auto.
    + destruct H as (i' & u' & n' & Hi' & _ & _ & Hu' & _ & Ha').
      congruence.
  - intros Ha.
    pose proof (unassign_attempt_run ctx w issue u n Hi Hv Hr Hu Hn Ha) as E.
    cbv zeta in E. rewrite <- Ho, <- Hf, <- Hc in E.
    rewrite <- (mutations_calls (trace _)).
    generalize dependent (calls (trace (exec api (Unassign.handler ctx) w))).
    generalize dependent (outcome (exec api (Unassign.handler ctx) w)).
    generalize dependent (final (exec api (Unassign.handler ctx) w)).
    intros wf _ o _ cs _ E.
    destruct (api _ (paginate_call ctx n) w) as [res w1].
    exists res, w1. split; [reflexivity|].
    destruct res as [e|comments].
    { injection E as -> _ ->. auto. }
    cbv zeta in E.
    destruct (Unassign.alreadyUnassigned comments _).
    { injection E as _ _ ->. auto. }
    destruct (api _ (remove_call ctx n u) w1) as [[e|x] w2].
    { injection E as _ _ ->. auto. }
    destruct (api _ (confirm_call ctx n u) w2) as [[e|y] w3];
      injection E as _ _ ->; auto.
Qed.

(** C8: a run of either handler raises only the error of a rejected call
    or, for the notifier, the error of the undetermined pull-request number;
    it then ends with the console lines of its [catch] block (the error, the
    PR number and the repository; the error, the issue number and the
    commenter) and raises that same error.  A run in which no call is
    rejected returns, and so do the expected no-op conditions: bot author,
    marker already present, issue not open, commenter not an assignee. *)
Theorem C8_errors_reported_and_rethrown :
  (forall ctx env w,
     let r := exec api (LinkBot.handler ctx env) w in
     match outcome r with
     | Raised e =>
         exists t, trace r = t ++ linkbot_report_lines ctx env e /\
           (failures t = [e] \/
            (t = [] /\ truthy_num (LinkBot.prNumber ctx env) = false /\
             e = mkError (js "PR number could not be determined") None))
     | Returned _ =>
         failures (trace r) = [] /\
         truthy_num (LinkBot.prNumber ctx env) = true
     end) /\
  (forall ctx w,
     let r := exec api (Unassign.handler ctx) w in
     match outcome r with
     | Raised e =>
         exists t, trace r = t ++ unassign_report_lines ctx e /\
                   failures t = [e]
     | Returned _ => failures (trace r) = []
     end) /\
  (forall ctx env w n pr w0 t0,
     LinkBot.prNumber ctx env = Some n -> n <> 0%Z ->
     exec api (LinkBot.fetch ctx n) w = (Returned pr, w0, t0) ->
     (LinkBot.bot_author pr = true \/
      exists comments w1,
        api _ (list_call ctx n) w0 = (inr comments, w1) /\
        LinkBot.alreadyCommented comments = true) ->
     outcome (exec api (LinkBot.handler ctx env) w) = Returned tt) /\
  (forall ctx w,
     ((i ← payload_issue (context_payload ctx); issue_state i)
        <> Some (js "open") \/
      exists issue u,
        payload_issue (context_payload ctx) = Some issue /\
        Unassign.commenter (payload_comment (context_payload ctx)) = Some u /\
        not_assignee issue u) ->
     outcome (exec api (Unassign.handler ctx) w) = Returned tt).
Proof.
  split; [|split; [|split]].
  - intros ctx env w r. subst r. rewrite linkbot_handler_run.
    destruct (truthy_num (LinkBot.prNumber ctx env)) eqn:Hn.
    + pose proof (linkbot_attempt_faithful ctx env w Hn) as Hf.
      destruct (exec api (LinkBot.attempt ctx env) w) as [[[a|e] w1] t];
        unfold faithful, outcome, trace in *; cbn [fst snd] in *.
      * auto.
      * exists t. auto.
    + rewrite attempt_undetermined by exact Hn.
      unfold outcome, trace. cbn [fst snd]. exists []. auto.
  - intros ctx w r. subst r. rewrite unassign_handler_run.
    pose proof (unassign_attempt_faithful ctx w) as Hf.
    destruct (exec api (Unassign.attempt ctx) w) as [[[a|e] w1] t];
      unfold faithful, outcome, trace in *; cbn [fst snd] in *.
    + exact Hf.
    + exists t. auto.
  - intros ctx env w n pr w0 t0 Hn Hz Hf H.
    rewrite linkbot_handler_run, (attempt_run _ _ _ n Hn Hz), Hf.
    destruct (LinkBot.bot_author pr) eqn:Hb.
    { destruct (check_bot ctx env n pr w0 Hb) as (Ho & _ & _).
      destruct (exec api (LinkBot.check ctx env n pr) w0) as [[o w1] t1].
      unfold outcome in *. cbn [fst] in *. subst o. reflexivity. }
    destruct H as [H|(comments & w1 & Hl & Hc)]; [discriminate|].
    rewrite (check_run _ _ _ _ _ Hb), Hl. cbv zeta. rewrite Hc.
    reflexivity.
  - intros ctx w [H|(issue & u & Hi & Hu & Ha)].
    + apply (invalid_context_run ctx w).
      apply invalid_context. do 5 right. exact H.
    + apply (not_assignee_run ctx w issue u Hi Hu).
      apply not_assignee_false. exact Ha.
Qed.

End Runs.

(** ** Runs against the model of the REST service *)

Lemma commentBody_marked ctx pr :
  includes (LinkBot.commentBody ctx pr) LinkBot.LINKBOT_MARKER = true.
Proof.
  unfold LinkBot.commentBody. cbn [join]. rewrite <- !app_assoc.
  apply (includes_app []).
Qed.

Lemma existsb_filter_nil {A} (f : A -> bool) l :
  existsb f l = false -> List.filter f l = [].
Proof.
  induction l as [|x l IH]; simpl; [reflexivity|].
  destruct (f x); simpl; [discriminate|exact IH].
Qed.

Lemma github_fetch w ctx n pr :
  here_ctx w ctx -> serves w ctx n pr ->
  exists t0, exec GitHub.api (LinkBot.fetch ctx n) w = (Returned pr, w, t0) /\
             posted t0 = [].
Proof.
  intros Hh [Hp|[Hp Hg]]; rewrite fetch_run, Hp.
  - exists []. auto.
  - cbn. rewrite Hh, Hg. eexists. split; reflexivity.
Qed.

Lemma github_first_run ctx env w n pr l :
  LinkBot.prNumber ctx env = Some n -> n <> 0%Z ->
  here_ctx w ctx -> serves w ctx n pr ->
  LinkBot.bot_author pr = false ->
  test LinkBot.regex (LinkBot.body pr) = false ->
  LinkBot.isDryRun env = false ->
  GitHub.threads w !! n = Some l ->
  LinkBot.alreadyCommented (take (GitHub.per_page w) l) = false ->
  let r := exec GitHub.api (LinkBot.handler ctx env) w in
  outcome r = Returned tt /\
  final r = GitHub.set_thread w n (l ++ [reminder ctx pr w]) /\
  posted (trace r) = [LinkBot.commentBody ctx pr].
Proof.
  intros Hn Hz Hh Hs Hb Hr Hd Hl Hc r. subst r.
  destruct (github_fetch w ctx n pr Hh Hs) as (t0 & Hf & Hp).
  rewrite linkbot_handler_run, (attempt_run _ _ _ _ n Hn Hz), Hf.
  rewrite (check_run _ _ _ _ _ _ Hb).
  unfold list_call, create_call. cbn [GitHub.api]. rewrite Hh, Hl.
  cbv zeta. rewrite Hc, Hr, Hd. cbn [GitHub.api]. rewrite Hh, Hl.
  traces. rewrite Hp. auto.
Qed.

Lemma github_later_run ctx env w n pr l :
  LinkBot.prNumber ctx env = Some n -> n <> 0%Z ->
  here_ctx w ctx -> serves w ctx n pr ->
  GitHub.threads w !! n = Some l ->
  LinkBot.alreadyCommented (take (GitHub.per_page w) l) = true ->
  let r := exec GitHub.api (LinkBot.handler ctx env) w in
  outcome r = Returned tt /\ final r = w /\ posted (trace r) = [].
Proof.
  intros Hn Hz Hh Hs Hl Hc r. subst r.
  destruct (github_fetch w ctx n pr Hh Hs) as (t0 & Hf & Hp).
  rewrite linkbot_handler_run, (attempt_run _ _ _ _ n Hn Hz), Hf.
  destruct (LinkBot.bot_author pr) eqn:Hb.
  { destruct (check_bot GitHub.api ctx env n pr w Hb) as (Ho & Hw & Hcs).
    destruct (exec GitHub.api (LinkBot.check ctx env n pr) w) as [[o w1] t1].
    unfold outcome, final, trace in *. cbn [fst snd] in *. subst.
    traces. rewrite Hp, (calls_posted _ Hcs). auto. }
  rewrite (check_run _ _ _ _ _ _ Hb).
  unfold list_call. cbn [GitHub.api]. rewrite Hh, Hl.
  cbv zeta. rewrite Hc. traces. rewrite Hp. auto.
Qed.

Lemma linkbot_runs_settled ctx env w :
  final (exec GitHub.api (LinkBot.handler ctx env) w) = w ->
  posted (trace (exec GitHub.api (LinkBot.handler ctx env) w)) = [] ->
  forall k, fst (linkbot_runs ctx env k w) = w /\
            posted (snd (linkbot_runs ctx env k w)) = [].
Proof.
  intros Hw Hp. induction k as [|k [IH1 IH2]]; [auto|].
  simpl. rewrite Hw.
  destruct (linkbot_runs ctx env k w) as [w' t]. simpl in *.
  rewrite posted_app, Hp, IH2. auto.
Qed.

(** C1 (as amended): for a pull request of a non-bot author whose body
    lacks a closing keyword, outside dry run, on a thread that carries no
    marker yet and is shorter than one page of the comment listing, any
    number [k >= 1] of runs of the notifier posts exactly one comment, the
    reminder; the thread then holds exactly one marked comment. *)
Theorem C1_one_reminder (ctx : Context) (env : Env) (w : GitHub.State)
    (n : Z) (pr : PullRequest) (l : list Comment) (k : nat) :
  LinkBot.prNumber ctx env = Some n -> n <> 0%Z ->
  here_ctx w ctx -> serves w ctx n pr ->
  LinkBot.bot_author pr = false ->
  lacks_closing_keyword (LinkBot.body pr) = true ->
  LinkBot.isDryRun env = false ->
  GitHub.threads w !! n = Some l ->
  LinkBot.alreadyCommented l = false ->
  (length l < GitHub.per_page w)%nat ->
  (1 <= k)%nat ->
  posted (snd (linkbot_runs ctx env k w)) = [LinkBot.commentBody ctx pr] /\
  GitHub.thread (fst (linkbot_runs ctx env k w)) n = l ++ [reminder ctx pr w] /\
  reminders (fst (linkbot_runs ctx env k w)) n = 1%nat.
Proof.
  intros Hn Hz Hh Hs Hb Hk Hd Hl Hc Hlen Hk1.
  destruct k as [|k]; [lia|]. clear Hk1.
  assert (Htake : take (GitHub.per_page w) l = l) by (apply take_ge; lia).
  destruct (github_first_run ctx env w n pr l Hn Hz Hh Hs Hb
              (lacks_keyword_no_match _ Hk) Hd Hl) as (_ & Hw1 & Hp1).
  { rewrite Htake. exact Hc. }
  set (w1 := GitHub.set_thread w n (l ++ [reminder ctx pr w])) in *.
  assert (Hl1 : GitHub.threads w1 !! n = Some (l ++ [reminder ctx pr w])).
  { apply lookup_insert_eq. }
  assert (Hh1 : here_ctx w1 ctx) by exact Hh.
  assert (Hs1 : serves w1 ctx n pr) by exact Hs.
  assert (Hpp : GitHub.per_page w1 = GitHub.per_page w) by reflexivity.
  clearbody w1.
  destruct (github_later_run ctx env w1 n pr _ Hn Hz Hh1 Hs1 Hl1)
    as (_ & Hw2 & Hp2).
  { rewrite take_ge by (rewrite length_app, Hpp; simpl; lia).
    unfold LinkBot.alreadyCommented, reminder. rewrite existsb_app.
    cbn [existsb comment_body]. rewrite commentBody_marked.
    rewrite !orb_true_r. reflexivity. }
  destruct (linkbot_runs_settled ctx env w1 Hw2 Hp2 k) as [Hfix Hpk].
  simpl. rewrite Hw1.
  destruct (linkbot_runs ctx env k w1) as [w' t]. simpl in *. subst w'.
  rewrite posted_app, Hp1, Hpk.
  split; [reflexivity|].
  unfold reminders, GitHub.thread. rewrite Hl1. simpl.
  split; [reflexivity|].
  rewrite List.filter_app, length_app.
  rewrite (existsb_filter_nil marked l Hc). simpl.
  unfold marked, reminder. cbn [List.filter comment_body].
  rewrite ?commentBody_marked. reflexivity.
Qed.

Lemma confirmation_marked u :
  includes (confirmation u) (Unassign.buildUnassignMarker u) = true.
Proof. unfold confirmation. apply (includes_app []). Qed.

Lemma api_paginate w ctx n l :
  here_ctx w ctx -> GitHub.threads w !! n = Some l ->
  GitHub.api _ (paginate_call ctx n) w = (inr l, w).
Proof. intros Hh Hl. cbn. rewrite Hh, Hl. reflexivity. Qed.

Lemma api_remove w ctx n u l :
  here_ctx w ctx -> GitHub.threads w !! n = Some l ->
  GitHub.api _ (remove_call ctx n u) w
  = (inr tt,
     GitHub.set_assignees w n
       (List.filter (fun a => negb (existsb (str_eqb a) [u]))
                    (default [] (GitHub.assignees w !! n)))).
Proof. intros Hh Hl. cbn. rewrite Hh, Hl. reflexivity. Qed.

Lemma api_confirm w ctx n u l :
  here_ctx w ctx -> GitHub.threads w !! n = Some l ->
  GitHub.api _ (confirm_call ctx n u) w
  = (inr tt, GitHub.set_thread w n (l ++ [confirmation_comment w u])).
Proof. intros Hh Hl. cbn. rewrite Hh, Hl. reflexivity. Qed.

Lemma unassign_settled ctx w u n l :
  Unassign.commenter (payload_comment (context_payload ctx)) = Some u ->
  (i ← payload_issue (context_payload ctx); issue_number i) = Some n ->
  GitHub.threads w !! n = Some l ->
  Unassign.alreadyUnassigned l (Unassign.buildUnassignMarker u) = true ->
  mutations (trace (exec GitHub.api (Unassign.handler ctx) w)) = [].
Proof.
  intros Hu Hn Hl Hm. rewrite <- mutations_calls.
  destruct (unassign_cases GitHub.api ctx w) as [(_ & _ & ->)|H];
    [reflexivity|].
  destruct H as (issue & u' & n' & Hi & Hv & Hr & Hu' & Hn' & Ha).
  rewrite Hi in Hn. cbn in Hn. simplify_eq.
  pose proof (unassign_run GitHub.api ctx w issue u n Hi Hv Hr Hu Hn Ha) as E.
  cbv zeta in E.
  generalize dependent (calls (trace (exec GitHub.api (Unassign.handler ctx) w))).
  generalize dependent (outcome (exec GitHub.api (Unassign.handler ctx) w)).
  generalize dependent (final (exec GitHub.api (Unassign.handler ctx) w)).
  intros wf o cs E.
  unfold paginate_call in E at 1. cbn [GitHub.api] in E.
  destruct (GitHub.here w _ _).
  - rewrite Hl, Hm in E. injection E as _ _ ->. reflexivity.
  - injection E as _ _ ->. reflexivity.
Qed.

(** C2 (as amended): on an open issue that is not a pull request, a
    comment with a standalone /unassign token by a non-bot user whom the
    event lists as assignee, and for whom the thread holds no unassign
    marker yet, makes the handler call removeAssignees for exactly that user
    and then post exactly one confirmation that carries the user's marker;
    after that, no run of the handler for a comment of the same user on that
    issue makes a mutating call, whatever was added to the thread since. *)
Theorem C2_unassign_once (ctx : Context) (w : GitHub.State) (issue : Issue)
    (comment : Comment) (body u : jsstring) (n : Z) (l : list Comment) :
  payload_issue (context_payload ctx) = Some issue ->
  payload_comment (context_payload ctx) = Some comment ->
  ~ precondition_fails (Some issue) (Some comment) ->
  comment_body comment = Some body ->
  standalone_unassign body ->
  Unassign.commenter (Some comment) = Some u ->
  issue_number issue = Some n ->
  Unassign.isCurrentAssignee issue u = Some true ->
  here_ctx w ctx ->
  GitHub.threads w !! n = Some l ->
  Unassign.alreadyUnassigned l (Unassign.buildUnassignMarker u) = false ->
  let r := exec GitHub.api (Unassign.handler ctx) w in
  outcome r = Returned tt /\
  mutations (trace r)
  = [EvCall (remove_call ctx n u) (inr tt);
     EvCall (confirm_call ctx n u) (inr tt)] /\
  GitHub.thread (final r) n = l ++ [confirmation_comment w u] /\
  (forall a, In a (default [] (GitHub.assignees (final r) !! n)) -> a <> u) /\
  forall ctx' extra,
    Unassign.commenter (payload_comment (context_payload ctx')) = Some u ->
    (i ← payload_issue (context_payload ctx'); issue_number i) = Some n ->
    mutations
      (trace (exec GitHub.api (Unassign.handler ctx')
                (GitHub.set_thread (final r) n
                   (GitHub.thread (final r) n ++ extra)))) = [].
Proof.
  intros Hi Hc Hv Hb Hs Hu Hn Ha Hh Hl Hm r. subst r.
  apply valid_not_fails in Hv. apply standalone_unassign_spec in Hs.
  assert (Hr : Unassign.commentRequestsUnassign
                 (c ← payload_comment (context_payload ctx); comment_body c)
               = true) by (rewrite Hc; cbn; rewrite Hb; exact Hs).
  rewrite <- Hi, <- Hc in Hv. rewrite <- Hc in Hu.
  pose proof (unassign_run GitHub.api ctx w issue u n Hi Hv Hr Hu Hn Ha) as E.
  cbv zeta in E.
  rewrite <- (mutations_calls (trace _)).
  generalize dependent (calls (trace (exec GitHub.api (Unassign.handler ctx) w))).
  generalize dependent (outcome (exec GitHub.api (Unassign.handler ctx) w)).
  generalize dependent (final (exec GitHub.api (Unassign.handler ctx) w)).
  intros wf o cs E.
  rewrite (api_paginate _ _ _ _ Hh Hl) in E. cbv zeta in E. rewrite Hm in E.
  rewrite (api_remove _ _ _ _ _ Hh Hl) in E.
  set (w2 := GitHub.set_assignees w n _) in E.
  rewrite (api_confirm w2 ctx n u l Hh Hl) in E.
  injection E as -> -> ->.
  split; [reflexivity|]. split; [reflexivity|].
  assert (Ht : GitHub.threads (GitHub.set_thread w2 n
                 (l ++ [confirmation_comment w2 u])) !! n
               = Some (l ++ [confirmation_comment w u]))
    by apply lookup_insert_eq.
  split; [unfold GitHub.thread; rewrite Ht; reflexivity|].
  split.
  - intros a. cbn [GitHub.set_thread GitHub.assignees]. unfold w2.
    cbn [GitHub.set_assignees GitHub.assignees].
    rewrite lookup_insert_eq. cbn [default from_option id]. rewrite filter_In.
    intros [_ H] ->. cbn in H. unfold str_eqb in H.
    rewrite bool_decide_eq_true_2 in H by reflexivity. discriminate.
  - intros ctx' extra Hu' Hn'.
    eapply unassign_settled; [exact Hu'|exact Hn'|apply lookup_insert_eq|].
    unfold GitHub.thread. rewrite Ht. cbn [default from_option id].
    unfold Unassign.alreadyUnassigned. rewrite !existsb_app.
    unfold confirmation_comment. cbn [existsb comment_body].
    rewrite confirmation_marked, !orb_true_r. reflexivity.
Qed.

(** ** The claims on sample events *)

Lemma regex_samples :
  test LinkBot.regex (js "Fixes #12") = true /\
  test LinkBot.regex (js "closes: #3, #4") = true /\
  test LinkBot.regex (js "This resolves#7.") = true /\
  test LinkBot.regex (js "Fixes the bug") = false /\
  test LinkBot.regex (js "HotFixes #12") = false /\
  test LinkBot.regex [] = false.
Proof. vm_compute. repeat split. Qed.

Lemma unassign_samples :
  Unassign.commentRequestsUnassign (Some (js "/unassign")) = true /\
  Unassign.commentRequestsUnassign (Some (js "please /UNASSIGN me")) = true /\
  Unassign.commentRequestsUnassign (Some (js "/unassigned")) = false /\
  Unassign.commentRequestsUnassign (Some (js "/unassign.")) = false /\
  Unassign.commentRequestsUnassign None = false.
Proof. vm_compute. repeat split. Qed.

Lemma C1_counterexample :
  let ctx := Samples.pr_event Samples.bot_pr in
  let w := Samples.service Samples.bot_pr [] [] in
  lacks_closing_keyword (LinkBot.body Samples.bot_pr) = true /\
  posted (snd (linkbot_runs ctx Samples.no_env 2 w)) = [] /\
  reminders (fst (linkbot_runs ctx Samples.no_env 2 w)) 5 = 0%nat.
Proof. vm_compute. repeat split. Qed.

(** Past the first page the marker is not seen: on a thread of 30 comments
    two runs post two reminders. *)
Lemma linkbot_duplicate_past_first_page :
  let ctx := Samples.pr_event Samples.plain_pr in
  let w := Samples.service Samples.plain_pr (repeat Samples.ping 30) [] in
  reminders (fst (linkbot_runs ctx Samples.no_env 2 w)) 5 = 2%nat.
Proof. vm_compute. reflexivity. Qed.

Lemma C1_witness :
  let ctx := Samples.pr_event Samples.plain_pr in
  let w := Samples.service Samples.plain_pr [] [] in
  lacks_closing_keyword (LinkBot.body Samples.plain_pr) = true /\
  posted (snd (linkbot_runs ctx Samples.no_env 3 w))
  = [LinkBot.commentBody ctx Samples.plain_pr] /\
  GitHub.thread (fst (linkbot_runs ctx Samples.no_env 3 w)) 5
  = [] ++ [reminder ctx Samples.plain_pr w] /\
  reminders (fst (linkbot_runs ctx Samples.no_env 3 w)) 5 = 1%nat.
Proof.
  split; [vm_compute; reflexivity|].
  apply (C1_one_reminder (Samples.pr_event Samples.plain_pr) Samples.no_env
           (Samples.service Samples.plain_pr [] []) 5%Z Samples.plain_pr [] 3).
  - reflexivity.
  - discriminate.
  - vm_compute. reflexivity.
  - left. reflexivity.
  - vm_compute. reflexivity.
  - vm_compute. reflexivity.
  - reflexivity.
  - vm_compute. reflexivity.
  - reflexivity.
  - simpl. lia.
  - lia.
Defined.

Lemma C2_counterexample :
  let issue := Samples.open_issue [Samples.helper_bot] in
  let ctx := Samples.comment_event (js "open") [Samples.helper_bot]
               Samples.helper_bot (js "/unassign") in
  let w := Samples.service Samples.plain_pr [] [js "helper"] in
  Unassign.isCurrentAssignee issue (js "helper") = Some true /\
  Unassign.commentRequestsUnassign (Some (js "/unassign")) = true /\
  calls (trace (exec GitHub.api (Unassign.handler ctx) w)) = [] /\
  final (exec GitHub.api (Unassign.handler ctx) w) = w.
Proof. vm_compute. repeat split. Qed.

Lemma C2_witness :
  let ctx := Samples.comment_event (js "open") [Samples.alice] Samples.alice
               (js "/unassign") in
  let w := Samples.service Samples.plain_pr [] [js "alice"] in
  let r := exec GitHub.api (Unassign.handler ctx) w in
  standalone_unassign (js "/unassign") /\
  outcome r = Returned tt /\
  mutations (trace r)
  = [EvCall (remove_call ctx 7 (js "alice")) (inr tt);
     EvCall (confirm_call ctx 7 (js "alice")) (inr tt)] /\
  GitHub.thread (final r) 7 = [] ++ [confirmation_comment w (js "alice")].
Proof.
  assert (Hs : standalone_unassign (js "/unassign")).
  { apply standalone_unassign_spec. vm_compute. reflexivity. }
  split; [exact Hs|].
  pose proof (C2_unassign_once
    (Samples.comment_event (js "open") [Samples.alice] Samples.alice
       (js "/unassign"))
    (Samples.service Samples.plain_pr [] [js "alice"])
    (Samples.open_issue [Samples.alice])
    (mkComment (Some (js "/unassign")) (Some Samples.alice))
    (js "/unassign") (js "alice") 7%Z []) as H.
  destruct H as (H1 & H2 & H3 & _).
  - reflexivity.
  - reflexivity.
  - intros H. apply invalid_context in H. vm_compute in H. discriminate.
  - reflexivity.
  - exact Hs.
  - reflexivity.
  - reflexivity.
  - vm_compute. reflexivity.
  - vm_compute. reflexivity.
  - vm_compute. reflexivity.
  - vm_compute. reflexivity.
  - auto.
Defined.

Lemma C3_counterexample :
  let w := Samples.service Samples.plain_pr [] [js "alice"] in
  let stale := Samples.comment_event (js "open") [] Samples.alice
                 (js "/unassign") in
  let fresh := Samples.comment_event (js "open") [Samples.alice] Samples.alice
                 (js "/unassign") in
  GitHub.assignees w !! 7%Z = Some [js "alice"] /\
  calls (trace (exec GitHub.api (Unassign.handler stale) w)) = [] /\
  mutations (trace (exec GitHub.api (Unassign.handler fresh) w)) <> [].
Proof. vm_compute. repeat split. discriminate. Qed.

Lemma C3_witness :
  let ctx := Samples.comment_event (js "open") [] Samples.alice
               (js "/unassign") in
  let w := Samples.service Samples.plain_pr [] [js "alice"] in
  Unassign.isCurrentAssignee (Samples.open_issue []) (js "alice") <> Some true /\
  calls (trace (exec GitHub.api (Unassign.handler ctx) w)) = [] /\
  final (exec GitHub.api (Unassign.handler ctx) w) = w.
Proof.
  assert (Ha : Unassign.isCurrentAssignee (Samples.open_issue []) (js "alice")
               <> Some true) by (vm_compute; discriminate).
  split; [exact Ha|].
  refine (proj1 (C3_history_from_api_assignees_from_event GitHub.api
           (Samples.comment_event (js "open") [] Samples.alice (js "/unassign"))
           (Samples.service Samples.plain_pr [] [js "alice"])
           (Samples.open_issue []) (js "alice") 7%Z _ _ _ _ _) Ha).
  - reflexivity.
  - vm_compute. reflexivity.
  - vm_compute. reflexivity.
  - reflexivity.
  - reflexivity.
Defined.

Lemma C4_counterexample :
  let ctx := Samples.pr_event Samples.hotfix_pr in
  let w := Samples.service Samples.hotfix_pr [] [] in
  includes (LinkBot.body Samples.hotfix_pr) (js "Fixes #12") = true /\
  posted (trace (exec GitHub.api (LinkBot.handler ctx Samples.no_env) w))
  = [LinkBot.commentBody ctx Samples.hotfix_pr].
Proof. vm_compute. repeat split. Qed.

Lemma C4_witness :
  let ctx := Samples.pr_event Samples.linked_pr in
  let w := Samples.service Samples.linked_pr [] [] in
  test LinkBot.regex (LinkBot.body Samples.linked_pr) = true /\
  posted (trace (exec GitHub.api (LinkBot.handler ctx Samples.no_env) w)) = [] /\
  mutations (trace (exec GitHub.api (LinkBot.handler ctx Samples.no_env) w))
  = [].
Proof.
  assert (H : test LinkBot.regex (LinkBot.body Samples.linked_pr) = true)
    by (vm_compute; reflexivity).
  split; [exact H|].
  apply (C4_linked_issue_no_comment GitHub.api
           (Samples.pr_event Samples.linked_pr) Samples.no_env
           (Samples.service Samples.linked_pr [] []) 5%Z Samples.linked_pr
           (Samples.service Samples.linked_pr [] []) []).
  - reflexivity.
  - reflexivity.
  - left. exact H.
Defined.

Lemma C5_witness :
  let ctx := Samples.comment_event (js "closed") [Samples.alice] Samples.alice
               (js "/unassign") in
  let w := Samples.service Samples.plain_pr [] [js "alice"] in
  precondition_fails (payload_issue (context_payload ctx))
                     (payload_comment (context_payload ctx)) /\
  outcome (exec GitHub.api (Unassign.handler ctx) w) = Returned tt /\
  mutations (trace (exec GitHub.api (Unassign.handler ctx) w)) = [] /\
  calls (trace (exec GitHub.api (Unassign.handler ctx) w)) = [] /\
  final (exec GitHub.api (Unassign.handler ctx) w) = w.
Proof.
  assert (H : precondition_fails
           (payload_issue (context_payload
              (Samples.comment_event (js "closed") [Samples.alice]
                 Samples.alice (js "/unassign"))))
           (payload_comment (context_payload
              (Samples.comment_event (js "closed") [Samples.alice]
                 Samples.alice (js "/unassign"))))).
  { do 5 right. vm_compute. discriminate. }
  split; [exact H|].
  exact (C5_failed_precondition_no_mutation GitHub.api _ _ H).
Defined.

Lemma C6_witness :
  let ctx := Samples.comment_event (js "open") [Samples.alice] Samples.bob
               (js "please /unassign me") in
  let w := Samples.service Samples.plain_pr [] [js "alice"] in
  standalone_unassign (js "please /unassign me") /\
  outcome (exec GitHub.api (Unassign.handler ctx) w) = Returned tt /\
  mutations (trace (exec GitHub.api (Unassign.handler ctx) w)) = [] /\
  calls (trace (exec GitHub.api (Unassign.handler ctx) w)) = [] /\
  final (exec GitHub.api (Unassign.handler ctx) w) = w.
Proof.
  assert (Hs : standalone_unassign (js "please /unassign me")).
  { apply standalone_unassign_spec. vm_compute. reflexivity. }
  split; [exact Hs|].
  apply (C6_non_assignee_no_mutation GitHub.api _ _
           (Samples.open_issue [Samples.alice])
           (mkComment (Some (js "please /unassign me")) (Some Samples.bob))
           (js "please /unassign me") (js "bob")).
  - reflexivity.
  - reflexivity.
  - reflexivity.
  - exact Hs.
  - reflexivity.
  - intros l a Hl Ha. simpl in Hl. injection Hl as <-.
    destruct Ha as [<-|[]]. vm_compute. discriminate.
Defined.

Lemma C7_witness :
  let ctx := Samples.pr_event Samples.bot_pr in
  let w := Samples.service Samples.bot_pr [] [] in
  LinkBot.bot_author Samples.bot_pr = true /\
  posted (trace (exec GitHub.api (LinkBot.handler ctx Samples.no_env) w)) = [] /\
  mutations (trace (exec GitHub.api (LinkBot.handler ctx Samples.no_env) w))
  = [].
Proof.
  split; [vm_compute; reflexivity|].
  apply (C7_bot_pr_no_comment GitHub.api (Samples.pr_event Samples.bot_pr)
           Samples.no_env (Samples.service Samples.bot_pr [] []) 5%Z
           Samples.bot_pr (Samples.service Samples.bot_pr [] []) []).
  - reflexivity.
  - reflexivity.
  - vm_compute. reflexivity.
Defined.

Lemma C8_witness :
  let ctx := Samples.pr_event Samples.bot_pr in
  let w := Samples.service Samples.bot_pr [] [] in
  LinkBot.bot_author Samples.bot_pr = true /\
  outcome (exec GitHub.api (LinkBot.handler ctx Samples.no_env) w)
  = Returned tt.
Proof.
  split; [vm_compute; reflexivity|].
  apply (proj1 (proj2 (proj2 (C8_errors_reported_and_rethrown GitHub.api)))
           (Samples.pr_event Samples.bot_pr) Samples.no_env
           (Samples.service Samples.bot_pr [] []) 5%Z Samples.bot_pr
           (Samples.service Samples.bot_pr [] []) []).
  - reflexivity.
  - discriminate.
  - reflexivity.
  - left. vm_compute. reflexivity.
Defined.

(** A rejected listing: the run of the notifier on a pull request the
    service does not know ends with the three lines of the [catch] block
    and raises the 404 of the service. *)
Lemma linkbot_rejected_listing :
  let pr := mkPullRequest (Some 6%Z) (Some Samples.alice) None in
  let ctx := Samples.pr_event pr in
  let r := exec GitHub.api (LinkBot.handler ctx Samples.no_env)
             (Samples.service Samples.plain_pr [] []) in
  outcome r = Raised GitHub.not_found /\
  failures (trace r) = [GitHub.not_found] /\
  skipn 2 (trace r) = linkbot_report_lines ctx Samples.no_env GitHub.not_found.
Proof. vm_compute. repeat split. Qed.

Lemma C9_witness :
  let ctx := Samples.pr_event Samples.plain_pr in
  let w := Samples.service Samples.plain_pr [] [] in
  LinkBot.isDryRun Samples.dry_env = true /\
  mutations (trace (exec GitHub.api (LinkBot.handler ctx Samples.dry_env) w))
  = [] /\
  In (log, [VStr (LinkBot.commentBody ctx Samples.plain_pr)])
     (console_lines
        (trace (exec GitHub.api (LinkBot.handler ctx Samples.dry_env) w))).
Proof.
  split; [reflexivity|].
  destruct (C9_dry_run_no_mutation GitHub.api
              (Samples.pr_event Samples.plain_pr) Samples.dry_env
              (Samples.service Samples.plain_pr [] []) eq_refl)
    as (Hm & _ & Hlog).
  split; [exact Hm|].
  apply (Hlog Samples.no_env); [reflexivity|].
  vm_compute. left. reflexivity.
Defined.

Lemma C10_witness :
  let ctx := Samples.pr_event Samples.plain_pr in
  let w := Samples.service Samples.plain_pr [] [] in
  pr_body Samples.plain_pr = None /\
  posted (trace (exec GitHub.api (LinkBot.handler ctx Samples.no_env) w))
  = [LinkBot.commentBody ctx Samples.plain_pr].
Proof.
  split; [reflexivity|].
  apply (C10_missing_body_gets_reminder GitHub.api
           (Samples.pr_event Samples.plain_pr) Samples.no_env
           (Samples.service Samples.plain_pr [] []) 5%Z Samples.plain_pr
           (Samples.service Samples.plain_pr [] []) [] []
           (Samples.service Samples.plain_pr [] [])).
  - reflexivity.
  - discriminate.
  - reflexivity.
  - vm_compute. reflexivity.
  - reflexivity.
  - vm_compute. reflexivity.
  - reflexivity.
  - reflexivity.
Defined.

(** * Further properties of the two scripts *)

(** ** The pattern of the notifier *)

Lemma matches_consumes r z z' :
  matches r z z' ->
  exists c, snd z = c ++ snd z' /\ fst z' = rev c ++ fst z.
Proof.
  induction 1; simpl in *.
  - exists []. auto.
  - exists [d]. auto.
  - exists [d]. auto.
  - destruct IHmatches1 as (c1 & E1 & F1), IHmatches2 as (c2 & E2 & F2).
    exists (c1 ++ c2). rewrite E1, E2, F2, F1, rev_app_distr, !app_assoc. auto.
  - assumption.
  - assumption.
  - exists []. auto.
  - destruct IHmatches1 as (c1 & E1 & F1), IHmatches2 as (c2 & E2 & F2).
    exists (c1 ++ c2). rewrite E1, E2, F2, F1, rev_app_distr, !app_assoc. auto.
  - exists []. auto.
  - exists []. auto.
  - exists []. auto.
Qed.

Lemma star_class_intro f run : forall p t,
  forallb f run = true ->
  matches (Star (Class f)) (p, run ++ t) (rev run ++ p, t).
Proof.
  induction run as [|c run IH]; intros p t H; simpl.
  - apply M_Star0.
  - simpl in H. apply andb_true_iff in H as [Hc H].
    eapply M_StarS; [apply M_Class; exact Hc| |].
    + unfold remaining. simpl. lia.
    + rewrite <- app_assoc. simpl. apply IH. exact H.
Qed.

Lemma star_class_inv f z z' :
  matches (Star (Class f)) z z' ->
  exists run, snd z = run ++ snd z' /\ forallb f run = true /\
              fst z' = rev run ++ fst z.
Proof.
  intros H. remember (Star (Class f)) as r eqn:Er.
  induction H; try discriminate.
  - exists []. auto.
  - injection Er as ->. specialize (IHmatches2 eq_refl).
    destruct IHmatches2 as (run & E & Hf & F).
    inversion H as [| |f' d p s Hd| | | | | | | |]; subst. simpl in *.
    exists (d :: run). simpl. rewrite E, F, <- app_assoc, Hd. auto.
Qed.

Lemma canon_word c d : canon d = canon c -> is_word d = is_word c.
Proof.
  unfold canon, is_word, is_digit.
  repeat match goal with
         | |- context [?a <=? ?b] => destruct (N.leb_spec a b)
         | |- context [?a =? ?b] => destruct (N.eqb_spec a b)
         end; simpl; try reflexivity; lia.
Qed.

Lemma seq_inv r1 r2 z z' :
  matches (Seq r1 r2) z z' -> exists z1, matches r1 z z1 /\ matches r2 z1 z'.
Proof. inversion 1; subst; eauto. Qed.

Lemma alt_inv r1 r2 z z' :
  matches (Alt r1 r2) z z' -> matches r1 z z' \/ matches r2 z z'.
Proof. inversion 1; subst; auto. Qed.

Lemma chr_inv c p t z' :
  matches (Chr c) (p, t) z' ->
  exists d s, t = d :: s /\ canon d = canon c /\ z' = (d :: p, s).
Proof. inversion 1; subst; eauto. Qed.

Lemma class_inv f p t z' :
  matches (Class f) (p, t) z' ->
  exists d s, t = d :: s /\ f d = true /\ z' = (d :: p, s).
Proof. inversion 1; subst; eauto. Qed.

Lemma eps_inv z z' : matches Eps z z' -> z' = z.
Proof. inversion 1; subst; auto. Qed.

Lemma wordb_inv z z' :
  matches WordB z z' -> z' = z /\ word_at (before z) <> word_at (after z).
Proof. inversion 1; subst; auto. Qed.

Lemma canon_punct c d : canon d = canon c -> c < 65 -> d = c.
Proof.
  unfold canon.
  repeat match goal with
         | |- context [?a <=? ?b] => destruct (N.leb_spec a b)
         end; simpl; lia.
Qed.

Lemma keyword_word kw lo t :
  lower kw = lower lo -> lo <> [] -> forallb is_word lo = true ->
  word_at (head (kw ++ t)) = true.
Proof.
  intros E Hne Hw. apply map_lower_canon in E.
  destruct lo as [|c lo]; [contradiction|].
  destruct kw as [|d kw]; [discriminate|].
  simpl in *. injection E as Ec _. rewrite (canon_word _ _ Ec).
  apply andb_true_iff in Hw as [Hw _]. exact Hw.
Qed.

Lemma regex_parts : LinkBot.regex = Seq WordB (Seq keywords reference_tail).
Proof. reflexivity. Qed.

Lemma keywords_intro kw p t :
  lower kw = js "fixes" \/ lower kw = js "closes" \/ lower kw = js "resolves" ->
  matches keywords (p, kw ++ t) (rev kw ++ p, t).
Proof.
  unfold keywords. intros [E|[E|E]].
  - apply M_AltL, lit_matches_intro, map_lower_canon. exact E.
  - apply M_AltR, M_AltL, lit_matches_intro, map_lower_canon. exact E.
  - apply M_AltR, M_AltR, lit_matches_intro, map_lower_canon. exact E.
Qed.

Lemma keywords_inv p t z' :
  matches keywords (p, t) z' ->
  exists kw t', t = kw ++ t' /\ z' = (rev kw ++ p, t') /\
    (lower kw = js "fixes" \/ lower kw = js "closes" \/
     lower kw = js "resolves").
Proof.
  unfold keywords. intros H.
  apply alt_inv in H as [H|H]; [|apply alt_inv in H as [H|H]];
    apply lit_matches_inv in H as (kw & t' & -> & E & ->);
    exists kw, t'; (split; [reflexivity|]); (split; [reflexivity|]);
    apply map_canon_lower in E; auto.
Qed.

Lemma reference_tail_intro p ws1 colon ws2 d rest :
  forallb is_space ws1 = true ->
  colon = [] \/ colon = [58] ->
  forallb is_space ws2 = true ->
  is_digit d = true ->
  exists z',
    matches reference_tail (p, ws1 ++ colon ++ ws2 ++ [35; d] ++ rest) z'.
Proof.
  intros H1 Hc H2 Hd. unfold reference_tail.
  assert (Hrest : forall q, exists z',
            matches
              (Seq (Star (Class is_space))
                 (Seq LinkBot.issue_ref
                    (Star (Seq (Star (Class is_space))
                             (Seq (Chr 44)
                                (Seq (Star (Class is_space))
                                   LinkBot.issue_ref))))))
              (q, ws2 ++ [35; d] ++ rest) z').
  { intros q. eexists.
    eapply M_Seq; [apply star_class_intro; exact H2|].
    eapply M_Seq; [|apply M_Star0].
    unfold LinkBot.issue_ref, Plus. simpl.
    eapply M_Seq; [apply M_Chr; reflexivity|].
    eapply M_Seq; [apply M_Class; exact Hd|apply M_Star0]. }
  destruct Hc as [->| ->].
  - destruct (Hrest (rev ws1 ++ p)) as [z' Hz]. exists z'.
    eapply M_Seq; [apply star_class_intro; exact H1|].
    eapply M_Seq; [apply M_AltR, M_Eps|exact Hz].
  - destruct (Hrest (58 :: rev ws1 ++ p)) as [z' Hz]. exists z'.
    eapply M_Seq; [apply star_class_intro; exact H1|].
    eapply M_Seq; [apply M_AltL; simpl; apply M_Chr; reflexivity|exact Hz].
Qed.

Lemma reference_tail_inv p t z' :
  matches reference_tail (p, t) z' ->
  exists ws1 colon ws2 d rest,
    t = ws1 ++ colon ++ ws2 ++ [35; d] ++ rest /\
    forallb is_space ws1 = true /\
    (colon = [] \/ colon = [58]) /\
    forallb is_space ws2 = true /\
    is_digit d = true.
Proof.
  unfold reference_tail. intros H.
  apply seq_inv in H as ([p1 t1] & Hs1 & H).
  apply star_class_inv in Hs1 as (ws1 & E1 & Hw1 & _). simpl in E1. subst t.
  apply seq_inv in H as ([p2 t2] & Hc & H).
  assert (Hcol : exists colon, t1 = colon ++ t2 /\ (colon = [] \/ colon = [58])).
  { apply alt_inv in Hc as [Hc|Hc].
    - apply chr_inv in Hc as (c & s & -> & Ec & Ez). injection Ez as _ <-.
      apply canon_punct in Ec; [|reflexivity]. subst c. exists [58]. auto.
    - apply eps_inv in Hc. injection Hc as _ ->. exists []. auto. }
  destruct Hcol as (colon & -> & Hcol).
  apply seq_inv in H as ([p3 t3] & Hs2 & H).
  apply star_class_inv in Hs2 as (ws2 & E2 & Hw2 & _). simpl in E2. subst t2.
  apply seq_inv in H as ([p4 t4] & Hr & _).
  unfold LinkBot.issue_ref, Plus in Hr.
  apply seq_inv in Hr as ([p5 t5] & Hh & Hr).
  apply chr_inv in Hh as (h & s & -> & Eh & Ez). injection Ez as _ <-.
  apply canon_punct in Eh; [|reflexivity]. subst h.
  apply seq_inv in Hr as ([p6 t6] & Hd & _).
  apply class_inv in Hd as (d & rest & -> & Hd & _).
  exists ws1, colon, ws2, d, rest. auto.
Qed.

(** X1: the pattern of line 38 matches a body exactly when the body holds a
    closing reference: at the start or after a character that is not a word
    character, one of Fixes, Closes, Resolves in any letter case, then white
    space, at most one colon, white space, "#" and a digit.  What follows
    the first digit plays no part. *)
Theorem X1_closing_reference_spec (body : jsstring) :
  test LinkBot.regex body = true <-> closing_reference body.
Proof.
  rewrite test_spec, regex_parts. split.
  - intros (pre & post & z' & -> & H).
    apply seq_inv in H as (z1 & Hb & H).
    apply wordb_inv in Hb as [-> Hb].
    apply seq_inv in H as (z2 & Hk & H).
    apply keywords_inv in Hk as (kw & t' & -> & -> & Hkw).
    apply reference_tail_inv in H
      as (ws1 & colon & ws2 & d & rest & -> & H1 & Hc & H2 & Hd).
    exists pre, kw, ws1, colon, ws2, d, rest.
    repeat split; auto.
    intros pre' c ->. unfold before, after in Hb. cbn [fst snd] in Hb.
    assert (Hw : word_at (head (kw ++ ws1 ++ colon ++ ws2 ++ [35; d] ++ rest))
                 = true).
    { destruct Hkw as [E|[E|E]];
        [apply (keyword_word kw (js "fixes") _ E)
        |apply (keyword_word kw (js "closes") _ E)
        |apply (keyword_word kw (js "resolves") _ E)];
        first [discriminate | reflexivity]. }
    rewrite Hw, rev_app_distr in Hb. simpl in Hb.
    destruct (is_word c); [contradiction|reflexivity].
  - intros (pre & kw & ws1 & colon & ws2 & d & rest & -> & Hpre & Hkw & H1 & Hc
            & H2 & Hd).
    destruct (reference_tail_intro (rev kw ++ rev pre) ws1 colon ws2 d rest
                H1 Hc H2 Hd) as [z' Hz].
    exists pre, (kw ++ ws1 ++ colon ++ ws2 ++ [35; d] ++ rest), z'.
    split; [reflexivity|].
    eapply M_Seq.
    { apply M_WordB. unfold before, after. cbn [fst snd].
      rewrite (no_word_before_head _ Hpre).
      destruct Hkw as [E|[E|E]];
        [rewrite (keyword_word kw (js "fixes") _ E)
        |rewrite (keyword_word kw (js "closes") _ E)
        |rewrite (keyword_word kw (js "resolves") _ E)];
        first [discriminate | reflexivity]. }
    eapply M_Seq; [apply keywords_intro; exact Hkw|exact Hz].
Qed.

(** X2: [commentRequestsUnassign] holds exactly for a string that holds
    "/unassign", in any letter case, with white space or an end of the
    string on each side; a body that is not a string never requests. *)
Theorem X2_commentRequestsUnassign_spec (body : option jsstring) :
  Unassign.commentRequestsUnassign body = true <->
  exists s, body = Some s /\ standalone_unassign s.
Proof.
  destruct body as [s|].
  - rewrite <- (standalone_unassign_spec s). split.
    + intros H. exists s. auto.
    + intros (s' & E & H). injection E as <-. exact H.
  - split; [discriminate|]. intros (s & E & _). discriminate.
Qed.

(** ** The markers of the unassign bot *)

Lemma startsWith_spec p : forall s,
  startsWith s p = true -> exists c, s = p ++ c.
Proof.
  induction p as [|x p IH]; intros s H; simpl in H.
  - exists s. reflexivity.
  - destruct s as [|y s]; [discriminate|].
    apply andb_true_iff in H as [E H]. apply N.eqb_eq in E. subst y.
    destruct (IH _ H) as [c ->]. exists c. reflexivity.
Qed.

Lemma includes_spec p : forall s,
  includes s p = true <-> exists a c, s = a ++ p ++ c.
Proof.
  intros s. split.
  - induction s as [|y s IH]; simpl; intros H.
    + rewrite orb_false_r in H. apply startsWith_spec in H as [c ->].
      exists [], c. reflexivity.
    + apply orb_true_iff in H as [H|H].
      * apply startsWith_spec in H as [c ->]. exists [], c. reflexivity.
      * destruct (IH H) as (a & c & ->). exists (y :: a), c. reflexivity.
  - intros (a & c & ->). apply includes_app.
Qed.

Lemma free_of_app x a b : free_of x (a ++ b) = free_of x a && free_of x b.
Proof. apply forallb_app. Qed.

Lemma free_of_mid x a b : free_of x (a ++ x :: b) = false.
Proof.
  rewrite free_of_app. simpl. rewrite N.eqb_refl. simpl.
  apply andb_false_r.
Qed.

Lemma plain_login_free u :
  plain_login u = true -> free_of 60 u = true /\ free_of 32 u = true.
Proof.
  unfold plain_login, free_of. induction u as [|c u IH]; simpl; [auto|].
  intros H. apply andb_true_iff in H as [Hc H].
  apply andb_true_iff in Hc as [H1 H2]. destruct (IH H) as [I1 I2].
  rewrite H1, H2, I1, I2. auto.
Qed.

Lemma until_separator x : forall u u' a b,
  free_of x u = true -> free_of x u' = true ->
  u ++ x :: a = u' ++ x :: b -> u = u'.
Proof.
  induction u as [|c u IH]; intros [|c' u'] a b Hu Hu' E; simpl in *.
  - reflexivity.
  - injection E as <- _. rewrite N.eqb_refl in Hu'. discriminate.
  - injection E as -> _. rewrite N.eqb_refl in Hu. discriminate.
  - injection E as <- E. apply andb_true_iff in Hu as [_ Hu].
    apply andb_true_iff in Hu' as [_ Hu']. f_equal. eauto.
Qed.

Lemma confirmation_shape u :
  confirmation u
  = 60 :: js "!-- unassign-requested:" ++ u ++ 32 :: js "-->" ++ [10; 10]
          ++ Unassign.confirmationMessage u.
Proof.
  unfold confirmation, Unassign.buildUnassignMarker.
  change (js "<!-- unassign-requested:")
    with (60 :: js "!-- unassign-requested:").
  change (js " -->") with (32 :: js "-->").
  simpl. rewrite <- !app_assoc. reflexivity.
Qed.

Lemma marker_shape u :
  Unassign.buildUnassignMarker u
  = 60 :: js "!-- unassign-requested:" ++ u ++ 32 :: js "-->".
Proof. reflexivity. Qed.

Lemma confirmation_tail_free u :
  free_of 60 u = true ->
  free_of 60 (js "!-- unassign-requested:" ++ u ++ 32 :: js "-->" ++ [10; 10]
                ++ Unassign.confirmationMessage u) = true.
Proof.
  intros H. unfold Unassign.confirmationMessage.
  change (32 :: js "-->" ++ [10; 10] ++ ?x) with ((32 :: js "-->" ++ [10; 10]) ++ x).
  rewrite !free_of_app, H. reflexivity.
Qed.

Lemma confirmation_names_its_user u u' :
  plain_login u = true -> plain_login u' = true ->
  includes (confirmation u') (Unassign.buildUnassignMarker u) = true ->
  u = u'.
Proof.
  intros Hu Hu' H. apply plain_login_free in Hu as [_ Hs].
  apply plain_login_free in Hu' as [Hl' Hs'].
  apply includes_spec in H as (a & c & E).
  rewrite confirmation_shape, marker_shape in E.
  pose proof (confirmation_tail_free u' Hl') as Hfree.
  remember (js "!-- unassign-requested:" ++ u' ++ 32 :: js "-->" ++ [10; 10]
              ++ Unassign.confirmationMessage u') as T eqn:ET.
  remember (js "!-- unassign-requested:" ++ u ++ 32 :: js "-->") as M eqn:EM.
  destruct a as [|x a].
  - change ([] ++ (60 :: M) ++ c) with (60 :: M ++ c) in E.
    injection E as E. subst T M. rewrite <- app_assoc in E.
    apply app_inv_head in E. rewrite <- app_assoc in E.
    change ((32 :: js "-->") ++ c) with (32 :: js "-->" ++ c) in E.
    symmetry. exact (until_separator 32 _ _ _ _ Hs' Hs E).
  - change ((x :: a) ++ (60 :: M) ++ c) with (x :: a ++ 60 :: M ++ c) in E.
    injection E as _ E. rewrite E, free_of_mid in Hfree. discriminate.
Qed.


(** X3: among confirmation comments for logins without "<" and without a
    space, the marker of a user is found exactly when one of them confirms
    that user: the confirmation of another user never blocks a request. *)
Theorem X3_unassign_markers_isolated (u : jsstring) (users : list jsstring)
    (who : option User) :
  plain_login u = true ->
  forallb plain_login users = true ->
  Unassign.alreadyUnassigned
    (List.map (fun v => mkComment (Some (confirmation v)) who) users)
    (Unassign.buildUnassignMarker u) = true
  <-> In u users.
Proof.
  intros Hu Hus. unfold Unassign.alreadyUnassigned. rewrite existsb_exists.
  split.
  - intros (c & Hc & H). apply in_map_iff in Hc as (v & <- & Hv). simpl in H.
    rewrite forallb_forall in Hus.
    rewrite (confirmation_names_its_user u v Hu (Hus v Hv) H). exact Hv.
  - intros Hin. exists (mkComment (Some (confirmation u)) who). split.
    + apply in_map_iff. exists u. auto.
    + simpl. apply confirmation_marked.
Qed.

(** ** Call sequences and posted comments, for every client *)

Lemma steps_app t1 t2 : steps (t1 ++ t2) = steps t1 ++ steps t2.
Proof. apply omap_app. Qed.

Lemma steps_calls tr : steps (calls tr) = steps tr.
Proof.
  unfold steps, calls. induction tr as [|ev tr IH]; [reflexivity|].
  destruct ev as [X c [e|x]|lvl args]; simpl;
    first [exact IH | f_equal; exact IH].
Qed.

Lemma commentBody_starts ctx pr :
  startsWith (LinkBot.commentBody ctx pr) LinkBot.LINKBOT_MARKER = true.
Proof.
  unfold LinkBot.commentBody. cbn [join]. rewrite <- !app_assoc.
  apply startsWith_app.
Qed.

Lemma confirmation_starts u :
  startsWith (confirmation u) (Unassign.buildUnassignMarker u) = true.
Proof. unfold confirmation. apply startsWith_app. Qed.

Section Protocols.
Context {W : Type} (api : Api W).

Ltac pick := solve [repeat first [left; reflexivity | right]].

Lemma check_steps ctx env n pr w0 :
  In (steps (trace (exec api (LinkBot.check ctx env n pr) w0)))
     (linkbot_tails ctx n).
Proof.
  destruct (LinkBot.bot_author pr) eqn:Hb.
  { destruct (check_bot api ctx env n pr w0 Hb) as (_ & _ & Hc).
    rewrite <- steps_calls, Hc. left. reflexivity. }
  rewrite (check_run api _ _ _ _ _ Hb).
  destruct (api _ _ w0) as [[e|comments] w1]; [pick|].
  cbv zeta. destruct (LinkBot.alreadyCommented comments); [pick|].
  destruct (test LinkBot.regex (LinkBot.body pr)); [pick|].
  destruct (LinkBot.isDryRun env); [pick|].
  destruct (api _ _ w1) as [[e|u] w2]; pick.
Qed.

(** X4: whatever the client answers, the calls of a run of the notifier
    form one of the sequences of [linkbot_protocol]: [pulls.get] only when
    the payload holds no pull request, at most one [listComments] and then
    at most one [createComment], each after the success of the call before,
    all on the repository of the context and the determined PR number; no
    other call is made. *)
Theorem X4_linkbot_call_protocol (ctx : Context) (env : Env) (w : W) :
  In (steps (trace (exec api (LinkBot.handler ctx env) w)))
     (linkbot_protocol ctx env).
Proof.
  assert (Hrep : steps (trace (exec api (LinkBot.handler ctx env) w))
                 = steps (trace (exec api (LinkBot.attempt ctx env) w))).
  { rewrite linkbot_handler_run.
    destruct (exec api (LinkBot.attempt ctx env) w) as [[[a|e] w1] t];
      unfold trace; cbn [snd]; [reflexivity|].
    rewrite steps_app. apply app_nil_r. }
  rewrite Hrep. clear Hrep.
  destruct (truthy_num (LinkBot.prNumber ctx env)) eqn:Hn.
  2:{ rewrite attempt_undetermined by exact Hn. unfold linkbot_protocol.
      destruct (payload_pull_request _); left; reflexivity. }
  destruct (LinkBot.prNumber ctx env) as [n|] eqn:En; [|discriminate].
  assert (Hz : n <> 0%Z) by (intros ->; discriminate).
  rewrite (attempt_run api _ _ _ n En Hz), fetch_run.
  unfold linkbot_protocol. rewrite En. cbn [default from_option id].
  destruct (payload_pull_request (context_payload ctx)) as [pr|].
  - pose proof (check_steps ctx env n pr w) as H.
    destruct (exec api (LinkBot.check ctx env n pr) w) as [[o w1] t1].
    exact H.
  - cbv zeta. destruct (api _ _ w) as [[e|pr] w0].
    + right. left. reflexivity.
    + pose proof (check_steps ctx env n pr w0) as H.
      destruct (exec api (LinkBot.check ctx env n pr) w0) as [[o w1] t1].
      right. right. unfold trace in *. cbn [snd] in *.
      change (steps (processing_line env n :: [EvCall (pulls_get
                (repo_owner (context_repo ctx)) (repo_repo (context_repo ctx))
                n) (inr pr)] ++ t1))
        with (linkbot_step ctx n KPullsGet true :: steps t1).
      apply in_map. exact H.
Qed.

(** X5: whatever the client answers, the calls of a run of the unassign bot
    form one of the sequences of [unassign_protocol]: the paginated listing,
    then [removeAssignees], then [createComment], each only after the
    success of the call before, all on the repository of the context and
    the issue number of the payload. *)
Theorem X5_unassign_call_protocol (ctx : Context) (w : W) :
  In (steps (trace (exec api (Unassign.handler ctx) w)))
     (unassign_protocol ctx).
Proof.
  rewrite <- steps_calls.
  destruct (unassign_cases api ctx w) as [(_ & _ & ->)|H]; [left; reflexivity|].
  destruct H as (issue & u & n & Hi & Hv & Hr & Hu & Hn & Ha).
  pose proof (unassign_run api ctx w issue u n Hi Hv Hr Hu Hn Ha) as E.
  cbv zeta in E.
  generalize dependent (calls (trace (exec api (Unassign.handler ctx) w))).
  generalize dependent (outcome (exec api (Unassign.handler ctx) w)).
  generalize dependent (final (exec api (Unassign.handler ctx) w)).
  intros wf o cs E.
  unfold unassign_protocol. rewrite Hi. cbn. rewrite Hn.
  cbn [default from_option id].
  destruct (api _ (paginate_call ctx n) w) as [[e|comments] w1].
  { injection E as _ _ ->. pick. }
  cbv zeta in E.
  destruct (Unassign.alreadyUnassigned comments _).
  { injection E as _ _ ->. pick. }
  destruct (api _ (remove_call ctx n u) w1) as [[e|x] w2].
  { injection E as _ _ ->. pick. }
  destruct (api _ (confirm_call ctx n u) w2) as [[e|y] w3];
    injection E as _ _ ->; pick.
Qed.
Lemma check_posted ctx env n pr w0 :
  posted (trace (exec api (LinkBot.check ctx env n pr) w0)) = [] \/
  posted (trace (exec api (LinkBot.check ctx env n pr) w0))
  = [LinkBot.commentBody ctx pr].
Proof.
  destruct (LinkBot.bot_author pr) eqn:Hb.
  { destruct (check_bot api ctx env n pr w0 Hb) as (_ & _ & Hc).
    left. apply calls_posted. exact Hc. }
  rewrite (check_run api _ _ _ _ _ Hb).
  destruct (api _ _ w0) as [[e|comments] w1]; [left; reflexivity|].
  cbv zeta. destruct (LinkBot.alreadyCommented comments); [left; reflexivity|].
  destruct (test LinkBot.regex (LinkBot.body pr)); [left; reflexivity|].
  destruct (LinkBot.isDryRun env); [left; reflexivity|].
  destruct (api _ _ w1) as [[e|u] w2]; right; reflexivity.
Qed.

(** X6: a comment the notifier posts starts with the LinkBot marker, and a
    run posts at most this one comment. *)
Theorem X6_linkbot_posts_marked (ctx : Context) (env : Env) (w : W)
    (b : jsstring) :
  In b (posted (trace (exec api (LinkBot.handler ctx env) w))) ->
  startsWith b LinkBot.LINKBOT_MARKER = true /\
  length (posted (trace (exec api (LinkBot.handler ctx env) w))) = 1%nat.
Proof.
  rewrite linkbot_handler_run.
  destruct (truthy_num (LinkBot.prNumber ctx env)) eqn:Hn.
  2:{ rewrite attempt_undetermined by exact Hn. intros []. }
  destruct (LinkBot.prNumber ctx env) as [n|] eqn:En; [|discriminate].
  assert (Hz : n <> 0%Z) by (intros ->; discriminate).
  rewrite (attempt_run api _ _ _ n En Hz).
  destruct (fetch_quiet api ctx n w) as [Hp _].
  destruct (exec api (LinkBot.fetch ctx n) w) as [[[pr|e] w0] t0].
  2:{ unfold trace in *. cbn [snd] in *. traces. rewrite Hp. intros []. }
  unfold trace in Hp. cbn [snd] in Hp.
  pose proof (check_posted ctx env n pr w0) as Hc.
  destruct (exec api (LinkBot.check ctx env n pr) w0) as [[[a|e] w1] t1];
    unfold trace in *; cbn [snd] in *; traces; rewrite Hp;
    (destruct Hc as [-> | ->]; [intros []|]);
    (intros [<-|[]]; split; [apply commentBody_starts|reflexivity]).
Qed.

(** X7: a comment the unassign bot posts is the confirmation for the
    commenter of the event; it starts with that user's marker, and a run
    posts at most this one comment. *)
Theorem X7_unassign_posts_marked (ctx : Context) (w : W) (b : jsstring) :
  In b (posted (trace (exec api (Unassign.handler ctx) w))) ->
  exists u,
    Unassign.commenter (payload_comment (context_payload ctx)) = Some u /\
    b = confirmation u /\
    startsWith b (Unassign.buildUnassignMarker u) = true /\
    length (posted (trace (exec api (Unassign.handler ctx) w))) = 1%nat.
Proof.
  rewrite <- posted_calls.
  destruct (unassign_cases api ctx w) as [(_ & _ & ->)|H]; [intros []|].
  destruct H as (issue & u & n & Hi & Hv & Hr & Hu & Hn & Ha).
  pose proof (unassign_run api ctx w issue u n Hi Hv Hr Hu Hn Ha) as E.
  cbv zeta in E.
  generalize dependent (calls (trace (exec api (Unassign.handler ctx) w))).
  generalize dependent (outcome (exec api (Unassign.handler ctx) w)).
  generalize dependent (final (exec api (Unassign.handler ctx) w)).
  intros wf o cs E.
  destruct (api _ (paginate_call ctx n) w) as [[e|comments] w1].
  { injection E as _ _ ->. intros []. }
  cbv zeta in E.
  destruct (Unassign.alreadyUnassigned comments _).
  { injection E as _ _ ->. intros []. }
  destruct (api _ (remove_call ctx n u) w1) as [[e|x] w2].
  { injection E as _ _ ->. intros []. }
  destruct (api _ (confirm_call ctx n u) w2) as [[e|y] w3];
    injection E as _ _ ->; (intros [<-|[]]); exists u;
    (split; [exact Hu|]); (split; [reflexivity|]);
    (split; [apply confirmation_starts|reflexivity]).
Qed.

(** X8: a comment whose body holds no standalone /unassign token makes the
    unassign bot return without any call, also when its author is an
    assignee. *)
Theorem X8_unassign_ignores_other_comments (ctx : Context) (w : W) :
  (forall body,
     (c ← payload_comment (context_payload ctx); comment_body c) = Some body ->
     ~ standalone_unassign body) ->
  outcome (exec api (Unassign.handler ctx) w) = Returned tt /\
  calls (trace (exec api (Unassign.handler ctx) w)) = [] /\
  final (exec api (Unassign.handler ctx) w) = w.
Proof.
  intros H.
  destruct (unassign_cases api ctx w) as [(Ho & Hf & Hc)|Hx]; [auto|].
  destruct Hx as (issue & u & n & _ & _ & Hr & _).
  destruct (c ← payload_comment (context_payload ctx); comment_body c)
    as [body|] eqn:Eb; [|discriminate].
  apply standalone_unassign_spec in Hr. destruct (H body eq_refl Hr).
Qed.

(** X9: when a listed comment holds the LinkBot marker, whoever wrote it,
    the notifier posts nothing and makes no mutating call, whatever the
    body of the pull request is. *)
Theorem X9_linkbot_marker_seen_no_post (ctx : Context) (env : Env) (w : W)
    (n : Z) (pr : PullRequest) (w0 : W) (t0 : list Event)
    (comments : list Comment) (w1 : W) :
  LinkBot.prNumber ctx env = Some n ->
  exec api (LinkBot.fetch ctx n) w = (Returned pr, w0, t0) ->
  api _ (list_call ctx n) w0 = (inr comments, w1) ->
  LinkBot.alreadyCommented comments = true ->
  posted (trace (exec api (LinkBot.handler ctx env) w)) = [] /\
  mutations (trace (exec api (LinkBot.handler ctx env) w)) = [].
Proof.
  intros Hn Hf Hl Hc. rewrite linkbot_handler_run.
  destruct (Z.eq_dec n 0%Z) as [->|Hz].
  { rewrite attempt_undetermined by (rewrite Hn; reflexivity). auto. }
  rewrite (attempt_run api _ _ _ n Hn Hz).
  destruct (fetch_quiet api ctx n w) as [Hp Hm]. rewrite Hf in *.
  unfold trace in Hp, Hm. cbn [snd] in Hp, Hm.
  destruct (LinkBot.bot_author pr) eqn:Hb.
  { destruct (check_bot api ctx env n pr w0 Hb) as (Ho & _ & Hcs).
    destruct (exec api (LinkBot.check ctx env n pr) w0) as [[o w2] t1].
    unfold outcome, trace in *. cbn [fst snd] in *. subst o.
    traces. rewrite Hp, Hm, (calls_posted _ Hcs), (calls_mutations _ Hcs).
    auto. }
  rewrite (check_run api _ _ _ _ _ Hb), Hl. cbv zeta. rewrite Hc.
  traces. rewrite Hp, Hm. auto.
Qed.

(** X10: a [workflow_dispatch] run (no pull request in the payload,
    PR_NUMBER set) in which [pulls.get] answers with the pull request ends
    as the run on the pull-request event does: same outcome, same final
    state, same posted comment. *)
Theorem X10_dispatch_run_as_event_run (ctx : Context) (env : Env) (w : W)
    (n : Z) (pr : PullRequest) :
  payload_pull_request (context_payload ctx) = Some pr ->
  LinkBot.prNumber ctx env = Some n -> n <> 0%Z ->
  api _ (pulls_get (repo_owner (context_repo ctx))
                   (repo_repo (context_repo ctx)) n) w = (inr pr, w) ->
  let event := exec api (LinkBot.handler ctx env) w in
  let dispatch :=
    exec api (LinkBot.handler (dispatch_ctx ctx) (dispatch_env env n)) w in
  outcome dispatch = outcome event /\
  final dispatch = final event /\
  posted (trace dispatch) = posted (trace event) /\
  mutations (trace dispatch) = mutations (trace event).
Proof.
  intros Hpr Hn Hz Hget event dispatch. subst event dispatch.
  assert (Hn' : LinkBot.prNumber (dispatch_ctx ctx) (dispatch_env env n)
                = Some n).
  { unfold LinkBot.prNumber. simpl. apply Z.eqb_neq in Hz. rewrite Hz.
    reflexivity. }
  rewrite !linkbot_handler_run.
  rewrite (attempt_run api _ _ _ n Hn Hz), (attempt_run api _ _ _ n Hn' Hz).
  rewrite !fetch_run, Hpr. cbn [dispatch_ctx context_payload
    payload_pull_request context_repo]. cbv zeta. rewrite Hget.
  change (LinkBot.check (dispatch_ctx ctx) (dispatch_env env n) n pr)
    with (LinkBot.check ctx env n pr).
  destruct (exec api (LinkBot.check ctx env n pr) w) as [[[a|e] w1] t1];
    traces; auto.
Qed.

End Protocols.

(** ** The further properties on sample events *)

Lemma X3_witness :
  plain_login (js "bob") = true /\
  (Unassign.alreadyUnassigned
     (List.map (fun v => mkComment (Some (confirmation v))
                           (Some Samples.actions_bot))
               [js "alice"; js "bobby"])
     (Unassign.buildUnassignMarker (js "bob")) = true
   <-> In (js "bob") [js "alice"; js "bobby"]).
Proof.
  split; [reflexivity|].
  apply (X3_unassign_markers_isolated (js "bob") [js "alice"; js "bobby"]
           (Some Samples.actions_bot)); reflexivity.
Defined.

Lemma X6_witness :
  let ctx := Samples.pr_event Samples.plain_pr in
  let w := Samples.service Samples.plain_pr [] [] in
  startsWith (LinkBot.commentBody ctx Samples.plain_pr)
             LinkBot.LINKBOT_MARKER = true /\
  length (posted (trace (exec GitHub.api (LinkBot.handler ctx Samples.no_env) w)))
  = 1%nat.
Proof.
  apply (X6_linkbot_posts_marked GitHub.api
           (Samples.pr_event Samples.plain_pr) Samples.no_env
           (Samples.service Samples.plain_pr [] [])).
  vm_compute. left. reflexivity.
Defined.

Lemma X7_witness :
  let ctx := Samples.comment_event (js "open") [Samples.alice] Samples.alice
               (js "/unassign") in
  let w := Samples.service Samples.plain_pr [] [js "alice"] in
  exists u,
    Unassign.commenter (payload_comment (context_payload ctx)) = Some u /\
    confirmation (js "alice") = confirmation u /\
    startsWith (confirmation (js "alice")) (Unassign.buildUnassignMarker u)
    = true /\
    length (posted (trace (exec GitHub.api (Unassign.handler ctx) w))) = 1%nat.
Proof.
  apply (X7_unassign_posts_marked GitHub.api
           (Samples.comment_event (js "open") [Samples.alice] Samples.alice
              (js "/unassign"))
           (Samples.service Samples.plain_pr [] [js "alice"])).
  vm_compute. left. reflexivity.
Defined.

Lemma X8_witness :
  let ctx := Samples.comment_event (js "open") [Samples.alice] Samples.alice
               (js "/unassigned") in
  let w := Samples.service Samples.plain_pr [] [js "alice"] in
  ~ standalone_unassign (js "/unassigned") /\
  outcome (exec GitHub.api (Unassign.handler ctx) w) = Returned tt /\
  calls (trace (exec GitHub.api (Unassign.handler ctx) w)) = [] /\
  final (exec GitHub.api (Unassign.handler ctx) w) = w.
Proof.
  assert (H : ~ standalone_unassign (js "/unassigned")).
  { intros H. apply standalone_unassign_spec in H. vm_compute in H.
    discriminate. }
  split; [exact H|].
  apply (X8_unassign_ignores_other_comments GitHub.api
           (Samples.comment_event (js "open") [Samples.alice] Samples.alice
              (js "/unassigned"))
           (Samples.service Samples.plain_pr [] [js "alice"])).
  intros body E. injection E as <-. exact H.
Defined.

Lemma X9_witness :
  let quote := mkComment (Some (js "> " ++ LinkBot.LINKBOT_MARKER))
                         (Some Samples.bob) in
  let ctx := Samples.pr_event Samples.plain_pr in
  let w := Samples.service Samples.plain_pr [quote] [] in
  LinkBot.alreadyCommented [quote] = true /\
  posted (trace (exec GitHub.api (LinkBot.handler ctx Samples.no_env) w)) = [] /\
  mutations (trace (exec GitHub.api (LinkBot.handler ctx Samples.no_env) w))
  = [].
Proof.
  split; [vm_compute; reflexivity|].
  apply (X9_linkbot_marker_seen_no_post GitHub.api
           (Samples.pr_event Samples.plain_pr) Samples.no_env
           (Samples.service Samples.plain_pr
              [mkComment (Some (js "> " ++ LinkBot.LINKBOT_MARKER))
                         (Some Samples.bob)] [])
           5%Z Samples.plain_pr
           (Samples.service Samples.plain_pr
              [mkComment (Some (js "> " ++ LinkBot.LINKBOT_MARKER))
                         (Some Samples.bob)] [])
           []
           [mkComment (Some (js "> " ++ LinkBot.LINKBOT_MARKER))
                      (Some Samples.bob)]
           (Samples.service Samples.plain_pr
              [mkComment (Some (js "> " ++ LinkBot.LINKBOT_MARKER))
                         (Some Samples.bob)] [])).
  - reflexivity.
  - reflexivity.
  - vm_compute. reflexivity.
  - vm_compute. reflexivity.
Defined.

Lemma X10_witness :
  let ctx := Samples.pr_event Samples.plain_pr in
  let w := Samples.service Samples.plain_pr [] [] in
  let event := exec GitHub.api (LinkBot.handler ctx Samples.no_env) w in
  let dispatch :=
    exec GitHub.api
      (LinkBot.handler (dispatch_ctx ctx) (dispatch_env Samples.no_env 5)) w in
  payload_pull_request (context_payload (dispatch_ctx ctx)) = None /\
  outcome dispatch = outcome event /\
  final dispatch = final event /\
  posted (trace dispatch) = posted (trace event) /\
  mutations (trace dispatch) = mutations (trace event).
Proof.
  split; [reflexivity|].
  apply (X10_dispatch_run_as_event_run GitHub.api
           (Samples.pr_event Samples.plain_pr) Samples.no_env
           (Samples.service Samples.plain_pr [] []) 5%Z Samples.plain_pr).
  - reflexivity.
  - reflexivity.
  - discriminate.
  - vm_compute. reflexivity.
Defined.
